(** * gem5 configuration scripts of the IoT residency project

    Two Python configuration scripts are embedded here:
    [dvfs_config.py] (a three-phase frequency/voltage sweep) and
    [remove_l2cache_config.py] (one uninterrupted run).  Both build a
    SimObject graph, hand it to the simulator with [m5.instantiate()] and
    then drive simulated time through [m5.simulate].

    The Python object graph is a store of objects addressed by identity
    (the position at which the object was allocated); every object carries
    its class and its instance dictionary, which keeps insertion order as
    Python dictionaries do.  A script
    is a computation in a state-and-exception monad over the interpreter
    state.  The simulator itself is not part of the repository: it enters
    as an [Engine], and every result below holds for all engines unless a
    concrete one is named. *)

From Stdlib Require Import DecimalString.
From stdpp Require Import base option list strings.

Set Warnings "-register-all".
Open Scope string_scope.
Open Scope list_scope.

(** ** Python values and objects *)

(** Classes named by the scripts, and the three that the CPU helper methods
    of the simulator library instantiate on the script's behalf. *)
Inductive Class :=
  | System | SrcClockDomain | VoltageDomain | SystemXBar | TimingSimpleCPU
  | DVFSHandler | Cache | L1Cache | L1ICache | L1DCache | L2Cache
  | MemCtrl | DDR3_1600_8x8 | SEWorkload | Process | Root
  | ArchInterrupts | ArchISA | ArchDecoder.

#[global] Instance Class_eq_dec : EqDecision Class.
Proof. solve_decision. Defined.

Inductive Value :=
  | VBool (b : bool)
  | VInt (z : Z)
  | VStr (s : string)
  | VRef (o : nat)                  (* a SimObject, by identity *)
  | VPort (o : nat) (p : string)    (* the port [p] of object [o] *)
  | VAddrRange (size : string)      (* AddrRange('512MB') *)
  | VExit (cause : string)          (* the exit event an advance returns *)
  | VList (l : list Value).

(** A Python dictionary with string keys, in insertion order. *)
Definition Dict : Type := list (string * Value).

(** [d.get(k)] *)
Fixpoint dict_get (d : Dict) (k : string) : option Value :=
  match d with
  | [] => None
  | (k', v) :: d' => if String.eqb k k' then Some v else dict_get d' k
  end.

(** [d[k] = v]: an existing key keeps its place, a new one goes last. *)
Fixpoint dict_set (d : Dict) (k : string) (v : Value) : Dict :=
  match d with
  | [] => [(k, v)]
  | (k', v') :: d' =>
      if String.eqb k k' then (k, v) :: d' else (k', v') :: dict_set d' k v
  end.

(** [del d[k]], doing nothing for an absent key. *)
Fixpoint dict_del (d : Dict) (k : string) : Dict :=
  match d with
  | [] => []
  | (k', v') :: d' =>
      if String.eqb k k' then d' else (k', v') :: dict_del d' k
  end.

Record Obj := mkObj { cls : Class; attrs : Dict }.

(** The object store: the object with identity [o] sits at position [o]. *)
Definition Heap : Type := list Obj.

Inductive PyErr :=
  | NotImplementedError
  | AttributeError (o : nat) (a : string)
  | IndexError
  | NameError (x : string)
  | TypeError
  | NotInstantiated.

(** ** The class statements of both scripts (lines 5-44, identical text) *)

(** [class X(Base)]. *)
Definition base (c : Class) : option Class :=
  match c with
  | L1Cache => Some Cache
  | L1ICache => Some L1Cache
  | L1DCache => Some L1Cache
  | L2Cache => Some Cache
  | _ => None
  end.

(** Attributes assigned in a class body. *)
Definition class_body (c : Class) : Dict :=
  match c with
  | L1Cache =>
      [ ("assoc", VInt 2); ("tag_latency", VInt 2); ("data_latency", VInt 2);
        ("response_latency", VInt 2); ("mshrs", VInt 4);
        ("tgts_per_mshr", VInt 20) ]
  | L1ICache => [ ("size", VStr "8kB") ]
  | L1DCache => [ ("size", VStr "8kB") ]
  | L2Cache =>
      [ ("size", VStr "64kB"); ("assoc", VInt 4); ("tag_latency", VInt 20);
        ("data_latency", VInt 20); ("response_latency", VInt 20);
        ("mshrs", VInt 20); ("tgts_per_mshr", VInt 12) ]
  | _ => []
  end.

(** Ports that the simulator library declares on the classes used here;
    reading one yields a reference to that port. *)
Definition ports (c : Class) : list string :=
  match c with
  | SystemXBar => ["cpu_side_ports"; "mem_side_ports"]
  | TimingSimpleCPU => ["icache_port"; "dcache_port"]
  | Cache | L1Cache | L1ICache | L1DCache | L2Cache => ["cpu_side"; "mem_side"]
  | MemCtrl => ["port"]
  | ArchInterrupts => ["pio"; "int_requestor"; "int_responder"]
  | _ => []
  end.

(** Lookup along the inheritance chain; the chains here have length at
    most three. *)
Fixpoint class_attr (fuel : nat) (c : Class) (a : string) : option Value :=
  match dict_get (class_body c) a with
  | Some v => Some v
  | None =>
      match fuel, base c with
      | S k, Some b => class_attr k b a
      | _, _ => None
      end
  end.

Fixpoint has_port (fuel : nat) (c : Class) (p : string) : bool :=
  bool_decide (p ∈ ports c) ||
  match fuel, base c with
  | S k, Some b => has_port k b p
  | _, _ => false
  end.

Definition mro_depth : nat := 3.

(** The store after [o.a = v]; an absent object leaves it as it is (the
    statement itself raises in that case, see [set_attr]). *)
Definition store (o : nat) (a : string) (v : Value) (h : Heap) : Heap :=
  match h !! o with
  | Some ob => <[o := mkObj (cls ob) (dict_set (attrs ob) a v)]> h
  | None => h
  end.

(** The instance attribute [a] of object [o], if both exist. *)
Definition field (h : Heap) (o : nat) (a : string) : option Value :=
  ob ← h !! o; dict_get (attrs ob) a.

(** ** The simulator as an external collaborator *)

(** What one call of [m5.simulate] reports back. *)
Record Outcome (S : Type) := mkOutcome {
  cause : string;       (* why the advance stopped *)
  elapsed : N;          (* simulated ticks that went by *)
  next : S
}.
Arguments mkOutcome {S}.
Arguments cause {S}.
Arguments elapsed {S}.
Arguments next {S}.

(** Modelled from the spec: the external simulation engine of section 6,
    [instantiate(topology)] and [advance(duration | unbounded) ->
    terminationCause]; the engine reads the object graph and owns its own
    state, and the tick counter moves only during an advance. *)
Record Engine := mkEngine {
  estate : Type;
  boot : Heap → estate;
  advance : option N → Heap → N → estate → Outcome estate
}.

(** The pieces of a formatted line: literal text, and the integers and
    strings an f-string interpolates. *)
Inductive Piece :=
  | Lit (s : string)
  | Num (n : N)
  | Str (s : string).

(** Python's [str] of a non-negative integer, as f-strings use it. *)
Definition str_of_tick (n : N) : string := NilZero.string_of_uint (N.to_uint n).

Definition render_piece (p : Piece) : string :=
  match p with
  | Lit s => s
  | Num n => str_of_tick n
  | Str s => s
  end.

(** The text of a line. *)
Definition render (line : list Piece) : string :=
  foldr (λ p acc, (render_piece p ++ acc)%string) "" line.

(** Calls into the [m5] module and console output, in program order. *)
Inductive Event :=
  | EvPrint (line : list Piece)
  | EvSetAttr (o : nat) (a : string) (v : Value)
  | EvInstantiate
  | EvReset
  | EvSimulate (limit : option N) (start stop : N) (why : string)
  | EvDump.

#[global] Instance Event_inhabited : Inhabited Event := populate EvReset.

Section Interp.
Variable E : Engine.

(** ** Interpreter state *)

Record World := mkWorld {
  heap : Heap;                       (* every object allocated so far *)
  globals : Dict;                    (* module-level names *)
  argv : list string;                (* sys.argv *)
  eng : option (estate E);           (* engine state once instantiated *)
  tick : N;                          (* m5.curTick() *)
  stat_from : N;                     (* tick of the last statistics reset *)
  dumps : list (N * N);              (* window of every statistics dump *)
  log : list Event
}.

Definition M (A : Type) : Type := World → PyErr + (A * World).

Definition ret {A} (x : A) : M A := λ w, inr (x, w).
Definition raise {A} (e : PyErr) : M A := λ _, inl e.
Definition bind {A B} (m : M A) (k : A → M B) : M B :=
  λ w, match m w with
       | inl e => inl e
       | inr (x, w') => k x w'
       end.

Notation "x <- m ;; k" := (bind m (λ x, k))
  (at level 100, m at next level, right associativity).
Notation "m ;; k" := (bind m (λ _, k))
  (at level 100, right associativity).

Definition with_heap (h : Heap) (w : World) : World :=
  mkWorld h (globals w) (argv w) (eng w) (tick w) (stat_from w) (dumps w) (log w).
Definition with_globals (g : Dict) (w : World) : World :=
  mkWorld (heap w) g (argv w) (eng w) (tick w) (stat_from w) (dumps w) (log w).
Definition emit (ev : Event) (w : World) : World :=
  mkWorld (heap w) (globals w) (argv w) (eng w) (tick w) (stat_from w) (dumps w)
          (log w ++ [ev]).

(** ** Statements and expressions *)

(** [print(...)] of a plain string and of an f-string. *)
Definition print_f (line : list Piece) : M unit := λ w, inr (tt, emit (EvPrint line) w).
Definition print (line : string) : M unit := print_f [Lit line].

(** [ClassName()]: a new object with an empty instance dictionary. *)
Definition new (c : Class) : M Value :=
  λ w, inr (VRef (length (heap w)), with_heap (heap w ++ [mkObj c []]) w).

(** [o.a]: declared ports first, then the instance dictionary, then the
    class bodies along the inheritance chain. *)
Definition get_attr (o : nat) (a : string) : M Value :=
  λ w, match heap w !! o with
       | None => inl (AttributeError o a)
       | Some ob =>
           if has_port mro_depth (cls ob) a then inr (VPort o a, w)
           else match dict_get (attrs ob) a with
                | Some v => inr (v, w)
                | None =>
                    match class_attr mro_depth (cls ob) a with
                    | Some v => inr (v, w)
                    | None => inl (AttributeError o a)
                    end
                end
       end.

(** [o.a = v]. *)
Definition set_attr (o : nat) (a : string) (v : Value) : M unit :=
  λ w, match heap w !! o with
       | None => inl (AttributeError o a)
       | Some _ => inr (tt, emit (EvSetAttr o a v) (with_heap (store o a v (heap w)) w))
       end.

Definition as_obj (v : Value) : M nat :=
  match v with
  | VRef o => ret o
  | _ => raise TypeError
  end.

(** [e.a] *)
Definition attr (e : M Value) (a : string) : M Value :=
  bind e (λ v, bind (as_obj v) (λ o, get_attr o a)).

(** [e.a = rhs]: the right-hand side is evaluated first. *)
Definition assign (e : M Value) (a : string) (rhs : M Value) : M unit :=
  bind rhs (λ v, bind e (λ t, bind (as_obj t) (λ o, set_attr o a v))).

(** [e[i]] *)
Definition item (e : M Value) (i : nat) : M Value :=
  bind e (λ v, match v with
               | VList l => match l !! i with
                            | Some x => ret x
                            | None => raise IndexError
                            end
               | _ => raise TypeError
               end).

(** Module-level names. *)
Definition glob (x : string) : M Value :=
  λ w, match dict_get (globals w) x with
       | Some v => inr (v, w)
       | None => inl (NameError x)
       end.

Definition set_glob (x : string) (rhs : M Value) : M unit :=
  bind rhs (λ v w, inr (tt, with_globals (dict_set (globals w) x v) w)).

(** ** Methods of the script's cache classes (lines 14-28 and 40-44) *)

Definition L1Cache_connectCPU (self cpu : Value) : M unit :=
  raise NotImplementedError.

Definition L1Cache_connectBus (self bus : Value) : M unit :=
  assign (ret self) "mem_side" (attr (ret bus) "cpu_side_ports").

Definition L1ICache_connectCPU (self cpu : Value) : M unit :=
  assign (ret self) "cpu_side" (attr (ret cpu) "icache_port").

Definition L1DCache_connectCPU (self cpu : Value) : M unit :=
  assign (ret self) "cpu_side" (attr (ret cpu) "dcache_port").

Definition L2Cache_connectCPUSideBus (self bus : Value) : M unit :=
  assign (ret self) "cpu_side" (attr (ret bus) "mem_side_ports").

Definition L2Cache_connectMemSideBus (self bus : Value) : M unit :=
  assign (ret self) "mem_side" (attr (ret bus) "cpu_side_ports").

(** The [def]s of a class body. *)
Definition class_method (c : Class) (m : string) : option (Value → Value → M unit) :=
  match c with
  | L1Cache =>
      if decide (m = "connectCPU") then Some L1Cache_connectCPU
      else if decide (m = "connectBus") then Some L1Cache_connectBus
      else None
  | L1ICache => if decide (m = "connectCPU") then Some L1ICache_connectCPU else None
  | L1DCache => if decide (m = "connectCPU") then Some L1DCache_connectCPU else None
  | L2Cache =>
      if decide (m = "connectCPUSideBus") then Some L2Cache_connectCPUSideBus
      else if decide (m = "connectMemSideBus") then Some L2Cache_connectMemSideBus
      else None
  | _ => None
  end.

Fixpoint resolve (fuel : nat) (c : Class) (m : string) : option (Value → Value → M unit) :=
  match class_method c m with
  | Some f => Some f
  | None =>
      match fuel, base c with
      | S k, Some b => resolve k b m
      | _, _ => None
      end
  end.

(** [e.m(arg)]: the method is looked up on the receiver's class, then the
    argument is evaluated, then the body runs. *)
Definition call (e : M Value) (m : string) (arg : M Value) : M unit :=
  self <- e ;;
  o <- as_obj self ;;
  λ w, match heap w !! o with
       | None => inl (AttributeError o m)
       | Some ob =>
           match resolve mro_depth (cls ob) m with
           | None => inl (AttributeError o m)
           | Some f => (a <- arg ;; f self a) w
           end
       end.

(** ** Helper methods of the simulator's CPU class *)

(** [cpu.createInterruptController()]: one interrupt controller per
    hardware thread, of which a fresh CPU has one. *)
Definition createInterruptController (e : M Value) : M unit :=
  self <- e ;;
  assign (ret self) "interrupts" (i <- new ArchInterrupts ;; ret (VList [i])).

(** [cpu.createThreads()]: one ISA object and one decoder per hardware
    thread. *)
Definition createThreads (e : M Value) : M unit :=
  self <- e ;;
  assign (ret self) "isa" (i <- new ArchISA ;; ret (VList [i])) ;;
  assign (ret self) "decoder"
    (isa <- item (attr (ret self) "isa") 0 ;;
     d <- new ArchDecoder ;;
     assign (ret d) "isa" (ret isa) ;;
     ret (VList [d])).

(** [SEWorkload.init_compatible(path)]: a workload object fitting the
    binary; the path itself is not kept on it. *)
Definition SEWorkload_init_compatible (path : M Value) : M Value :=
  _ <- path ;; new SEWorkload.

(** [Root(full_system=..., system=...)]: keyword arguments become
    attributes of the new object. *)
Definition Root_new (full_system system : M Value) : M Value :=
  f <- full_system ;;
  s <- system ;;
  r <- new Root ;;
  assign (ret r) "full_system" (ret f) ;;
  assign (ret r) "system" (ret s) ;;
  ret r.

Definition str (s : string) : M Value := ret (VStr s).
Definition int (z : Z) : M Value := ret (VInt z).

(** ** The [m5] module *)

(** Modelled from the spec: the calls of section 6 act on the engine state,
    the tick counter and the statistics window only.  Statistics are
    "counters accumulated since the last reset": a window that opens at the
    tick of the reset and is recorded, as it stands, by a dump. *)

(** [m5.instantiate()]: the engine takes the object graph as it is now. *)
Definition m5_instantiate : M unit :=
  λ w, inr (tt, emit EvInstantiate
                  (mkWorld (heap w) (globals w) (argv w) (Some (boot E (heap w)))
                           (tick w) (stat_from w) (dumps w) (log w))).

(** [m5.simulate(limit)]; [None] is the call without argument.  The
    engine sees the object graph and the current tick, and the tick moves
    on by what it reports as elapsed. *)
Definition m5_simulate (limit : option N) : M Value :=
  λ w, match eng w with
       | None => inl NotInstantiated
       | Some s =>
           let r := advance E limit (heap w) (tick w) s in
           inr (VExit (cause r),
                emit (EvSimulate limit (tick w) (tick w + elapsed r)%N (cause r))
                  (mkWorld (heap w) (globals w) (argv w) (Some (next r))
                           (tick w + elapsed r)%N (stat_from w) (dumps w) (log w)))
       end.

(** [m5.curTick()] *)
Definition m5_curTick : M N := λ w, inr (tick w, w).

(** [m5.stats.reset()] *)
Definition m5_stats_reset : M unit :=
  λ w, inr (tt, emit EvReset
                  (mkWorld (heap w) (globals w) (argv w) (eng w)
                           (tick w) (tick w) (dumps w) (log w))).

(** [m5.stats.dump()] *)
Definition m5_stats_dump : M unit :=
  λ w, inr (tt, emit EvDump
                  (mkWorld (heap w) (globals w) (argv w) (eng w)
                           (tick w) (stat_from w) (dumps w ++ [(stat_from w, tick w)])
                           (log w))).

(** [exit_event.getCause()] *)
Definition getCause (e : M Value) : M string :=
  v <- e ;;
  match v with
  | VExit c => ret c
  | _ => raise TypeError
  end.

(** The interpreter state a script starts in. *)
Definition init_world (args : list string) : World :=
  mkWorld [] [] args None 0 0 [] [].

End Interp.

Arguments heap {E}.
Arguments globals {E}.
Arguments argv {E}.
Arguments eng {E}.
Arguments tick {E}.
Arguments stat_from {E}.
Arguments dumps {E}.
Arguments log {E}.
Arguments ret {E A}.
Arguments raise {E A}.
Arguments bind {E A B}.
Arguments with_heap {E}.
Arguments with_globals {E}.
Arguments emit {E}.
Arguments print_f {E}.
Arguments print {E}.
Arguments new {E}.
Arguments get_attr {E}.
Arguments set_attr {E}.
Arguments as_obj {E}.
Arguments attr {E}.
Arguments assign {E}.
Arguments item {E}.
Arguments glob {E}.
Arguments set_glob {E}.
Arguments L1Cache_connectCPU {E}.
Arguments L1Cache_connectBus {E}.
Arguments L1ICache_connectCPU {E}.
Arguments L1DCache_connectCPU {E}.
Arguments L2Cache_connectCPUSideBus {E}.
Arguments L2Cache_connectMemSideBus {E}.
Arguments class_method {E}.
Arguments resolve {E}.
Arguments call {E}.
Arguments createInterruptController {E}.
Arguments createThreads {E}.
Arguments SEWorkload_init_compatible {E}.
Arguments Root_new {E}.
Arguments str {E}.
Arguments int {E}.
Arguments init_world {E}.
Arguments m5_instantiate {E}.
Arguments m5_simulate {E}.
Arguments m5_curTick {E}.
Arguments m5_stats_reset {E}.
Arguments m5_stats_dump {E}.
Arguments getCause {E}.

Declare Scope py_scope.
Delimit Scope py_scope with py.
Notation "x <- m ;; k" := (bind m (λ x, k))
  (at level 100, m at next level, right associativity) : py_scope.
Notation "m ;; k" := (bind m (λ _, k))
  (at level 100, right associativity) : py_scope.
Notation "e # a" := (attr e a) (at level 40, a at level 0, left associativity) : py_scope.
Notation "e # a ::= rhs" := (assign e a rhs)
  (at level 40, a at level 0, rhs at level 99, left associativity) : py_scope.
Notation "$ v" := (ret v) (at level 8, v at level 0, format "$ v") : py_scope.


Definition nl : string := String (Ascii.ascii_of_nat 10) "".

(** ** dvfs_config.py *)

Module dvfs_config.
Section Script.
Variable E : Engine.
Local Open Scope py_scope.

(** Lines 47-107. *)
Definition createIoTSystem : M E Value :=
  system <- new System ;;
  $system # "clk_domain" ::= new SrcClockDomain ;;
  $system # "clk_domain" # "clock" ::= str "500MHz" ;;
  $system # "clk_domain" # "voltage_domain" ::= new VoltageDomain ;;
  $system # "clk_domain" # "voltage_domain" # "voltage" ::= str "0.9V" ;;
  $system # "mem_mode" ::= str "timing" ;;
  $system # "mem_ranges" ::= $(VList [VAddrRange "512MB"]) ;;
  $system # "membus" ::= new SystemXBar ;;
  $system # "cpu" ::= new TimingSimpleCPU ;;
  $system # "cpu_voltage_domain" ::= new VoltageDomain ;;
  $system # "cpu_clk_domain" ::= new SrcClockDomain ;;
  $system # "cpu_clk_domain" # "clock" ::= str "500MHz" ;;
  $system # "cpu_clk_domain" # "voltage_domain" ::= $system # "cpu_voltage_domain" ;;
  $system # "cpu" # "clk_domain" ::= $system # "cpu_clk_domain" ;;
  $system # "cpu_clk_domain" # "domain_id" ::= int 0 ;;
  $system # "dvfs_handler" ::= new DVFSHandler ;;
  $system # "dvfs_handler" # "domains" ::=
    (d <- $system # "cpu_clk_domain" ;; $(VList [d])) ;;
  createInterruptController ($system # "cpu") ;;
  item ($system # "cpu" # "interrupts") 0 # "pio" ::=
    $system # "membus" # "mem_side_ports" ;;
  item ($system # "cpu" # "interrupts") 0 # "int_requestor" ::=
    $system # "membus" # "cpu_side_ports" ;;
  item ($system # "cpu" # "interrupts") 0 # "int_responder" ::=
    $system # "membus" # "mem_side_ports" ;;
  $system # "cpu" # "icache" ::= new L1ICache ;;
  $system # "cpu" # "dcache" ::= new L1DCache ;;
  call ($system # "cpu" # "icache") "connectCPU" ($system # "cpu") ;;
  call ($system # "cpu" # "dcache") "connectCPU" ($system # "cpu") ;;
  call ($system # "cpu" # "icache") "connectBus" ($system # "membus") ;;
  call ($system # "cpu" # "dcache") "connectBus" ($system # "membus") ;;
  $system # "mem_ctrl" ::= new MemCtrl ;;
  $system # "mem_ctrl" # "dram" ::= new DDR3_1600_8x8 ;;
  $system # "mem_ctrl" # "dram" # "range" ::= item ($system # "mem_ranges") 0 ;;
  $system # "mem_ctrl" # "port" ::= $system # "membus" # "mem_side_ports" ;;
  $system # "mem_ctrl" # "min_writes_per_switch" ::= int 8 ;;
  $system # "mem_ctrl" # "static_backend_latency" ::= str "10ns" ;;
  $system # "mem_ctrl" # "static_frontend_latency" ::= str "10ns" ;;
  $system.

(** Lines 109-120. *)
Definition configure : M E unit :=
  set_glob "system" createIoTSystem ;;
  set_glob "binary" (str "tests/test-progs/hello/bin/x86/linux/hello") ;;
  glob "system" # "workload" ::= SEWorkload_init_compatible (glob "binary") ;;
  set_glob "process" (new Process) ;;
  glob "process" # "cmd" ::= (b <- glob "binary" ;; $(VList [b])) ;;
  glob "system" # "cpu" # "workload" ::= glob "process" ;;
  createThreads (glob "system" # "cpu") ;;
  set_glob "root" (Root_new $(VBool false) (glob "system")).

(** Lines 122-125. *)
Definition start : M E unit :=
  m5_instantiate ;;
  print "Beginning simulation of IoT x86 system with low-power design".

(** Lines 127-138. *)
Definition phase1 : M E unit :=
  print (nl +:+ "[Phase 1] Running at 500MHz (high performance)...") ;;
  glob "system" # "cpu_clk_domain" # "clock" ::= str "500MHz" ;;
  glob "system" # "cpu_voltage_domain" # "voltage" ::= str "0.9V" ;;
  m5_stats_reset ;;
  set_glob "exit_event" (m5_simulate (Some 20000000%N)) ;;
  m5_stats_dump ;;
  t <- m5_curTick ;;
  print_f [Lit "Phase 1 completed at tick "; Num t].

(** Lines 140-151. *)
Definition phase2 : M E unit :=
  print (nl +:+ "[Phase 2] Changing frequency to 300MHz (power saving)...") ;;
  glob "system" # "cpu_clk_domain" # "clock" ::= str "300MHz" ;;
  glob "system" # "cpu_voltage_domain" # "voltage" ::= str "0.7V" ;;
  m5_stats_reset ;;
  set_glob "exit_event" (m5_simulate (Some 20000000%N)) ;;
  m5_stats_dump ;;
  t <- m5_curTick ;;
  print_f [Lit "Phase 2 completed at tick "; Num t].

(** Lines 153-165. *)
Definition phase3 : M E unit :=
  print (nl +:+ "[Phase 3] Returning to 500MHz for final phase...") ;;
  glob "system" # "cpu_clk_domain" # "clock" ::= str "500MHz" ;;
  glob "system" # "cpu_voltage_domain" # "voltage" ::= str "0.9V" ;;
  m5_stats_reset ;;
  set_glob "exit_event" (m5_simulate None) ;;
  m5_stats_dump ;;
  t <- m5_curTick ;;
  c <- getCause (glob "exit_event") ;;
  print_f [Lit "Exiting @ tick "; Num t; Lit " because "; Str c].

Definition drive : M E unit := phase1 ;; phase2 ;; phase3.

(** The whole module body. *)
Definition script : M E unit := configure ;; start ;; drive.

Definition run (args : list string) : PyErr + (unit * World E) :=
  script (init_world args).

End Script.
End dvfs_config.

(** ** remove_l2cache_config.py *)

Module remove_l2cache_config.
Section Script.
Variable E : Engine.
Local Open Scope py_scope.

(** Lines 47-101. *)
Definition createIoTSystem : M E Value :=
  system <- new System ;;
  $system # "clk_domain" ::= new SrcClockDomain ;;
  $system # "clk_domain" # "clock" ::= str "500MHz" ;;
  $system # "clk_domain" # "voltage_domain" ::= new VoltageDomain ;;
  $system # "clk_domain" # "voltage_domain" # "voltage" ::= str "0.9V" ;;
  $system # "mem_mode" ::= str "timing" ;;
  $system # "mem_ranges" ::= $(VList [VAddrRange "512MB"]) ;;
  $system # "membus" ::= new SystemXBar ;;
  $system # "cpu" ::= new TimingSimpleCPU ;;
  $system # "cpu_voltage_domain" ::= new VoltageDomain ;;
  $system # "cpu_clk_domain" ::= new SrcClockDomain ;;
  $system # "cpu_clk_domain" # "clock" ::= str "500MHz" ;;
  $system # "cpu_clk_domain" # "voltage_domain" ::= $system # "cpu_voltage_domain" ;;
  $system # "cpu" # "clk_domain" ::= $system # "cpu_clk_domain" ;;
  createInterruptController ($system # "cpu") ;;
  item ($system # "cpu" # "interrupts") 0 # "pio" ::=
    $system # "membus" # "mem_side_ports" ;;
  item ($system # "cpu" # "interrupts") 0 # "int_requestor" ::=
    $system # "membus" # "cpu_side_ports" ;;
  item ($system # "cpu" # "interrupts") 0 # "int_responder" ::=
    $system # "membus" # "mem_side_ports" ;;
  $system # "cpu" # "icache" ::= new L1ICache ;;
  $system # "cpu" # "dcache" ::= new L1DCache ;;
  call ($system # "cpu" # "icache") "connectCPU" ($system # "cpu") ;;
  call ($system # "cpu" # "dcache") "connectCPU" ($system # "cpu") ;;
  call ($system # "cpu" # "icache") "connectBus" ($system # "membus") ;;
  call ($system # "cpu" # "dcache") "connectBus" ($system # "membus") ;;
  $system # "mem_ctrl" ::= new MemCtrl ;;
  $system # "mem_ctrl" # "dram" ::= new DDR3_1600_8x8 ;;
  $system # "mem_ctrl" # "dram" # "range" ::= item ($system # "mem_ranges") 0 ;;
  $system # "mem_ctrl" # "port" ::= $system # "membus" # "mem_side_ports" ;;
  $system # "mem_ctrl" # "min_writes_per_switch" ::= int 8 ;;
  $system # "mem_ctrl" # "static_backend_latency" ::= str "10ns" ;;
  $system # "mem_ctrl" # "static_frontend_latency" ::= str "10ns" ;;
  $system.

(** Lines 103-114. *)
Definition configure : M E unit :=
  set_glob "system" createIoTSystem ;;
  set_glob "binary" (str "tests/test-progs/hello/bin/x86/linux/hello") ;;
  glob "system" # "workload" ::= SEWorkload_init_compatible (glob "binary") ;;
  set_glob "process" (new Process) ;;
  glob "process" # "cmd" ::= (b <- glob "binary" ;; $(VList [b])) ;;
  glob "system" # "cpu" # "workload" ::= glob "process" ;;
  createThreads (glob "system" # "cpu") ;;
  set_glob "root" (Root_new $(VBool false) (glob "system")).

(** Lines 116-119. *)
Definition start : M E unit :=
  m5_instantiate ;;
  print "Beginning simulation of IoT x86 system with low-power design".

(** Lines 120-121. *)
Definition drive : M E unit :=
  set_glob "exit_event" (m5_simulate None) ;;
  t <- m5_curTick ;;
  c <- getCause (glob "exit_event") ;;
  print_f [Lit "Exiting @ tick "; Num t; Lit " because "; Str c].

Definition script : M E unit := configure ;; start ;; drive.

Definition run (args : list string) : PyErr + (unit * World E) :=
  script (init_world args).

End Script.
End remove_l2cache_config.


(** ** Engines for concrete runs *)

(** An engine that never lets time pass; it serves to evaluate the parts of
    a script that run before the first advance. *)
Definition idle : Engine :=
  mkEngine unit (λ _, tt) (λ _ _ _ _, mkOutcome "" 0%N tt).


(** ** Observations on a run *)

Definition world_of {E A} (r : PyErr + (A * World E)) : World E :=
  match r with
  | inr (_, w) => w
  | inl _ => init_world []
  end.

Definition is_print (e : Event) : bool :=
  match e with EvPrint _ => true | _ => false end.
Definition is_dump (e : Event) : bool :=
  match e with EvDump => true | _ => false end.
Definition is_reset (e : Event) : bool :=
  match e with EvReset => true | _ => false end.
Definition is_simulate (e : Event) : bool :=
  match e with EvSimulate _ _ _ _ => true | _ => false end.
Definition is_setattr (e : Event) : bool :=
  match e with EvSetAttr _ _ _ => true | _ => false end.
Definition is_instantiate (e : Event) : bool :=
  match e with EvInstantiate => true | _ => false end.

(** Number of events of one kind. *)
Definition count (p : Event → bool) (l : list Event) : nat :=
  length (List.filter p l).

(** The events that are not console output. *)
Definition control (l : list Event) : list Event :=
  List.filter (λ e, negb (is_print e)) l.

(** The console, line by line. *)
Definition printed (l : list Event) : list string :=
  omap (λ e, match e with EvPrint line => Some (render line) | _ => None end) l.

(** Everything of a final state but the argument vector. *)
Definition observable {E} (w : World E) :=
  (heap w, globals w, eng w, tick w, stat_from w, dumps w, log w).

(** What one phase of a sweep does, console output aside: set the clock of
    [clk] and the voltage of [vd], reset, advance, dump. *)
Definition phase_block (clk vd : nat) (f v : string) (limit : option N)
    (start stop : N) (why : string) : list Event :=
  [EvSetAttr clk "clock" (VStr f); EvSetAttr vd "voltage" (VStr v);
   EvReset; EvSimulate limit start stop why; EvDump].

(** The log after the events [evs] were emitted one by one. *)
Definition emits (lg evs : list Event) : list Event :=
  foldl (λ l e, l ++ [e]) lg evs.

Definition greeting : string :=
  "Beginning simulation of IoT x86 system with low-power design".

(** ** The run of dvfs_config.py, step by step *)

Module dvfs_run.
Import dvfs_config.

(** The objects behind [system], [system.cpu_clk_domain] and
    [system.cpu_voltage_domain]. *)
Definition system : nat := 0.
Definition cpu_clk_domain : nat := 6.
Definition cpu_voltage_domain : nat := 5.

(** State when line 120 is done; it does not depend on the engine. *)
Definition configured : World idle := world_of (configure idle (init_world [])).
Definition built_heap : Heap := heap configured.
Definition built_globals : Dict := globals configured.
Definition construction_log : list Event := log configured.

Definition tune (f v : string) (h : Heap) : Heap :=
  store cpu_voltage_domain "voltage" (VStr v) (store cpu_clk_domain "clock" (VStr f) h).

Definition heap1 : Heap := tune "500MHz" "0.9V" built_heap.
Definition heap2 : Heap := tune "300MHz" "0.7V" heap1.
Definition heap3 : Heap := tune "500MHz" "0.9V" heap2.

Section Run.
Variable E : Engine.
Variable args : list string.

(** The three advances. *)
Definition out1 : Outcome (estate E) :=
  advance E (Some 20000000%N) heap1 0%N (boot E built_heap).
Definition t1 : N := elapsed out1.
Definition out2 : Outcome (estate E) :=
  advance E (Some 20000000%N) heap2 t1 (next out1).
Definition t2 : N := (t1 + elapsed out2)%N.
Definition out3 : Outcome (estate E) :=
  advance E None heap3 t2 (next out2).
Definition t3 : N := (t2 + elapsed out3)%N.

Definition log0 : list Event :=
  construction_log ++ [EvInstantiate; EvPrint [Lit greeting]].
Definition log1 : list Event :=
  log0 ++ [EvPrint [Lit (nl +:+ "[Phase 1] Running at 500MHz (high performance)...")]]
       ++ phase_block cpu_clk_domain cpu_voltage_domain "500MHz" "0.9V"
            (Some 20000000%N) 0 t1 (cause out1)
       ++ [EvPrint [Lit "Phase 1 completed at tick "; Num t1]].
Definition log2 : list Event :=
  log1 ++ [EvPrint [Lit (nl +:+ "[Phase 2] Changing frequency to 300MHz (power saving)...")]]
       ++ phase_block cpu_clk_domain cpu_voltage_domain "300MHz" "0.7V"
            (Some 20000000%N) t1 t2 (cause out2)
       ++ [EvPrint [Lit "Phase 2 completed at tick "; Num t2]].
Definition log3 : list Event :=
  log2 ++ [EvPrint [Lit (nl +:+ "[Phase 3] Returning to 500MHz for final phase...")]]
       ++ phase_block cpu_clk_domain cpu_voltage_domain "500MHz" "0.9V"
            None t2 t3 (cause out3)
       ++ [EvPrint [Lit "Exiting @ tick "; Num t3; Lit " because "; Str (cause out3)]].

(** Everything the run logs once [m5.instantiate()] has been called. *)
Definition sweep_log : list Event :=
  [EvPrint [Lit greeting];
   EvPrint [Lit (nl +:+ "[Phase 1] Running at 500MHz (high performance)...")]]
  ++ phase_block cpu_clk_domain cpu_voltage_domain "500MHz" "0.9V"
       (Some 20000000%N) 0 t1 (cause out1)
  ++ [EvPrint [Lit "Phase 1 completed at tick "; Num t1];
      EvPrint [Lit (nl +:+ "[Phase 2] Changing frequency to 300MHz (power saving)...")]]
  ++ phase_block cpu_clk_domain cpu_voltage_domain "300MHz" "0.7V"
       (Some 20000000%N) t1 t2 (cause out2)
  ++ [EvPrint [Lit "Phase 2 completed at tick "; Num t2];
      EvPrint [Lit (nl +:+ "[Phase 3] Returning to 500MHz for final phase...")]]
  ++ phase_block cpu_clk_domain cpu_voltage_domain "500MHz" "0.9V"
       None t2 t3 (cause out3)
  ++ [EvPrint [Lit "Exiting @ tick "; Num t3; Lit " because "; Str (cause out3)]].

(** The states between the parts of the script. *)
Definition w_conf : World E :=
  mkWorld E built_heap built_globals args None 0 0 [] construction_log.
Definition w0 : World E :=
  mkWorld E built_heap built_globals args (Some (boot E built_heap)) 0 0 [] log0.
Definition w1 : World E :=
  mkWorld E heap1 (dict_set built_globals "exit_event" (VExit (cause out1))) args
          (Some (next out1)) t1 0 [(0, t1)%N] log1.
Definition w2 : World E :=
  mkWorld E heap2 (dict_set built_globals "exit_event" (VExit (cause out2))) args
          (Some (next out2)) t2 t1 [(0, t1); (t1, t2)]%N log2.
Definition w3 : World E :=
  mkWorld E heap3 (dict_set built_globals "exit_event" (VExit (cause out3))) args
          (Some (next out3)) t3 t2 [(0, t1); (t1, t2); (t2, t3)]%N log3.
End Run.
End dvfs_run.

(** ** The run of remove_l2cache_config.py, step by step *)

Module plain_run.
Import remove_l2cache_config.

(** State when line 114 is done; it does not depend on the engine. *)
Definition configured : World idle := world_of (configure idle (init_world [])).
Definition built_heap : Heap := heap configured.
Definition built_globals : Dict := globals configured.
Definition construction_log : list Event := log configured.

Section Run.
Variable E : Engine.
Variable args : list string.

(** The one advance. *)
Definition out : Outcome (estate E) :=
  advance E None built_heap 0%N (boot E built_heap).

Definition log0 : list Event :=
  construction_log ++ [EvInstantiate; EvPrint [Lit greeting]].
Definition log1 : list Event :=
  log0 ++ [EvSimulate None 0 (elapsed out) (cause out);
           EvPrint [Lit "Exiting @ tick "; Num (elapsed out);
                    Lit " because "; Str (cause out)]].

Definition w_conf : World E :=
  mkWorld E built_heap built_globals args None 0 0 [] construction_log.
Definition w0 : World E :=
  mkWorld E built_heap built_globals args (Some (boot E built_heap)) 0 0 [] log0.
Definition w1 : World E :=
  mkWorld E built_heap (dict_set built_globals "exit_event" (VExit (cause out))) args
          (Some (next out)) (elapsed out) 0 [] log1.
End Run.
End plain_run.

(** ** Comparing object graphs *)

Fixpoint rename_value (ρ : nat → nat) (v : Value) : Value :=
  match v with
  | VRef o => VRef (ρ o)
  | VPort o p => VPort (ρ o) p
  | VList l => VList (List.map (rename_value ρ) l)
  | _ => v
  end.

Definition rename_obj (ρ : nat → nat) (ob : Obj) : Obj :=
  mkObj (cls ob) (List.map (λ kv, (kv.1, rename_value ρ kv.2)) (attrs ob)).

(** Two stores hold the same graph when a renaming of identities, one to
    one on the first store, carries every object of the first onto an
    object of the second and the stores have the same number of objects. *)
Definition same_topology (h1 h2 : Heap) : Prop :=
  ∃ ρ : nat → nat,
    (∀ i j, i < length h1 → j < length h1 → ρ i = ρ j → i = j) ∧
    length h1 = length h2 ∧
    ∀ o ob, h1 !! o = Some ob → h2 !! ρ o = Some (rename_obj ρ ob).

(** [del o.a] *)
Definition unset (o : nat) (a : string) (h : Heap) : Heap :=
  match h !! o with
  | Some ob => <[o := mkObj (cls ob) (dict_del (attrs ob) a)]> h
  | None => h
  end.

(** Identities once the object [gone] has left the store. *)
Definition shift_ref (gone o : nat) : nat :=
  if (gone <? o)%nat then pred o else o.

Definition drop_object (gone : nat) (h : Heap) : Heap :=
  rename_obj (shift_ref gone) <$> delete gone h.

(** The graph without its DVFS support: the handler [handler] hanging off
    [system.dvfs_handler] and the [domain_id] of the clock domain [clk]. *)
Definition without_dvfs (system clk handler : nat) (h : Heap) : Heap :=
  drop_object handler (unset system "dvfs_handler" (unset clk "domain_id" h)).

(** The store with the two fields a sweep tunes left out. *)
Definition untuned (clk vd : nat) (h : Heap) : Heap :=
  unset vd "voltage" (unset clk "clock" h).

(** The systems that [createIoTSystem] returns in either script. *)
Definition dvfs_system : World idle :=
  world_of (dvfs_config.createIoTSystem idle (init_world [])).
Definition plain_system : World idle :=
  world_of (remove_l2cache_config.createIoTSystem idle (init_world [])).
Definition dvfs_system_heap : Heap := heap dvfs_system.
Definition dvfs_system_log : list Event := log dvfs_system.
Definition plain_system_heap : Heap := heap plain_system.
Definition plain_system_log : list Event := log plain_system.

(** Where the instruction cache, the data cache and the bus sit. *)
Definition located (h : Heap) (sys cpu bus ic dc : nat) : Prop :=
  field h sys "cpu" = Some (VRef cpu) ∧
  field h sys "membus" = Some (VRef bus) ∧
  field h cpu "icache" = Some (VRef ic) ∧
  field h cpu "dcache" = Some (VRef dc) ∧
  cls <$> (h !! ic) = Some L1ICache ∧
  cls <$> (h !! dc) = Some L1DCache ∧
  cls <$> (h !! bus) = Some SystemXBar.

(** A store with one generic cache and one CPU. *)
Definition bare_cache_world : World idle :=
  mkWorld idle [mkObj L1Cache []; mkObj TimingSimpleCPU []] [] [] None 0 0 [] [].

(** ** Console of the sweep *)

(** The lines of a three-phase run that ends its phases at ticks [a], [b]
    and [c], the last advance stopping because of [why]. *)
Definition console (a b c : N) (why : string) : list string :=
  [ greeting;
    nl +:+ "[Phase 1] Running at 500MHz (high performance)...";
    render [Lit "Phase 1 completed at tick "; Num a];
    nl +:+ "[Phase 2] Changing frequency to 300MHz (power saving)...";
    render [Lit "Phase 2 completed at tick "; Num b];
    nl +:+ "[Phase 3] Returning to 500MHz for final phase...";
    render [Lit "Exiting @ tick "; Num c; Lit " because "; Str why] ].

(** ** Readings of the specification that the scripts do not meet *)


(** "createIoTSystem builds identical systems." *)
Definition builds_identical_systems : Prop :=
  same_topology dvfs_system_heap plain_system_heap.

(** ** Further observations *)

(** The parameters that the class bodies give an L1 instruction or data
    cache (lines 7-12, 21 and 26) and a second-level cache (lines 32-38). *)
Definition l1_parameters : list (string * Value) :=
  [ ("size", VStr "8kB"); ("assoc", VInt 2); ("tag_latency", VInt 2);
    ("data_latency", VInt 2); ("response_latency", VInt 2);
    ("mshrs", VInt 4); ("tgts_per_mshr", VInt 20) ].

Definition l2_parameters : list (string * Value) :=
  [ ("size", VStr "64kB"); ("assoc", VInt 4); ("tag_latency", VInt 20);
    ("data_latency", VInt 20); ("response_latency", VInt 20);
    ("mshrs", VInt 20); ("tgts_per_mshr", VInt 12) ].

(** The classes whose instances answer to [connectBus]. *)
Definition is_l1 (c : Class) : bool :=
  match c with
  | L1Cache | L1ICache | L1DCache => true
  | _ => false
  end.

(** A store with a second-level cache and a bus, and one with a data
    cache and a bus. *)
Definition l2_and_bus_world : World idle :=
  mkWorld idle [mkObj L2Cache []; mkObj SystemXBar []] [] [] None 0 0 [] [].
Definition dcache_and_bus_world : World idle :=
  mkWorld idle [mkObj L1DCache [("cpu_side", VPort 7 "dcache_port")]; mkObj SystemXBar []]
          [] [] None 0 0 [] [].
Definition l2_and_process_world : World idle :=
  mkWorld idle [mkObj L2Cache []; mkObj Process []] [] [] None 0 0 [] [].

(** The names of the parameters above. *)
Definition parameter_names : list string := l1_parameters.*1.

(** [x.p1.p2...]: the module-level name [x] followed along the attribute
    path [p]. *)
Definition read {E} (x : string) (p : list string) : M E Value :=
  foldl attr (glob x) p.

(** Whether an event is the assignment [o.a = ...]. *)
Definition assigns (o : nat) (a : string) (e : Event) : bool :=
  match e with
  | EvSetAttr o' a' _ => (o =? o')%nat && String.eqb a a'
  | _ => false
  end.

(** The port bindings an object holds: attribute, peer object, peer port. *)
Definition bindings_of (o : nat) (ob : Obj) : list (nat * string * nat * string) :=
  omap (λ kv, match kv.2 with
              | VPort b p => Some (o, kv.1, b, p)
              | _ => None
              end) (attrs ob).

(** All port bindings of a store, object by object. *)
Definition port_bindings (h : Heap) : list (nat * string * nat * string) :=
  concat (imap bindings_of h).

(** The module-level names bound so far, in the order of their first
    binding. *)
Definition names (g : Dict) : list string := g.*1.

Definition binary_path : string := "tests/test-progs/hello/bin/x86/linux/hello".

(** ** A run seen as the continuation of another *)

Definition rename_event (ρ : nat → nat) (e : Event) : Event :=
  match e with
  | EvSetAttr o a v => EvSetAttr (ρ o) a (rename_value ρ v)
  | _ => e
  end.

(** The identity that the object [o] of a fresh run has when the run
    starts in the state [W] instead. *)
Definition shift {E} (W : World E) (o : nat) : nat := length (heap W) + o.

(** The state [w], reached from an empty store, as it looks when the same
    statements run after the state [W]: the objects of [w] follow those of
    [W] under shifted identities, the log of [w] follows that of [W], and
    all else is as in [W]. *)
Definition onto {E} (W w : World E) : World E :=
  mkWorld E (heap W ++ (rename_obj (shift W) <$> heap w))
          (globals W) (argv W) (eng W) (tick W) (stat_from W) (dumps W)
          (log W ++ (rename_event (shift W) <$> log w)).

(** [m'] does after [W] what [m] does from the empty store, results being
    translated by [f]. *)
Definition carries {E A} (W : World E) (f : A → A) (m m' : M E A) : Prop :=
  ∀ w x w1, m w = inr (x, w1) → m' (onto W w) = inr (f x, onto W w1).

(** The identities a value and an object refer to. *)
Fixpoint refs_value (v : Value) : list nat :=
  match v with
  | VRef o => [o]
  | VPort o _ => [o]
  | VList l => concat (List.map refs_value l)
  | _ => []
  end.

Definition refs_obj (ob : Obj) : list nat :=
  concat (List.map (λ kv, refs_value kv.2) (attrs ob)).

(** Whether every reference held by an object of the store [h] points to
    an object of [h]. *)
Definition closed (h : Heap) : bool :=
  forallb (λ ob, forallb (λ r, (r <? length h)%nat) (refs_obj ob)) h.

(** [build], called in the state [W], constructs beside what exists the
    system that it constructs from nothing: it returns the first new
    object; the store is the old one followed by the objects [fresh] of a
    call in the initial state, under shifted identities; the log grows by
    the assignments of such a call, shifted likewise; module-level names,
    arguments, engine, tick and statistics are as before; and every
    reference held by a new object points to a new object. *)
Definition builds_beside {E} (build : M E Value) (fresh : Heap)
    (fresh_log : list Event) (W : World E) : Prop :=
  ∃ w',
    build W = inr (VRef (length (heap W)), w') ∧
    heap w' = heap W ++ (rename_obj (shift W) <$> fresh) ∧
    log w' = log W ++ (rename_event (shift W) <$> fresh_log) ∧
    globals w' = globals W ∧ argv w' = argv W ∧ eng w' = eng W ∧
    tick w' = tick W ∧ stat_from w' = stat_from W ∧ dumps w' = dumps W ∧
    Forall (λ ob, Forall (λ r, length (heap W) ≤ r < length (heap w'))
                         (refs_obj ob))
           (drop (length (heap W)) (heap w')).

(** Splits a conjunction into its parts and nothing else. *)
Ltac conjuncts := repeat match goal with |- _ ∧ _ => split end.

Section BindLaws.
Context {E : Engine}.

Lemma bind_ok {A B} (m : M E A) (k : A → M E B) w x w' :
  m w = inr (x, w') → bind m k w = k x w'.
Proof. intros H. unfold bind. now rewrite H. Qed.

Lemma bind_raise {A B} (m : M E A) (k : A → M E B) w e :
  m w = inl e → bind m k w = inl e.
Proof. intros H. unfold bind. now rewrite H. Qed.
End BindLaws.

Lemma emits_app (lg evs : list Event) : emits lg evs = lg ++ evs.
Proof.
  revert lg. induction evs as [|e evs IH]; intros lg; simpl.
  - now rewrite app_nil_r.
  - unfold emits in IH. rewrite IH. now rewrite <- app_assoc.
Qed.

Section DvfsSteps.
Import dvfs_config dvfs_run.
Variable E : Engine.
Variable args : list string.

Lemma dvfs_configure_eq : configure E (init_world args) = inr (tt, w_conf E args).
Proof. vm_compute. reflexivity. Qed.

Lemma dvfs_start_eq : start E (w_conf E args) = inr (tt, w0 E args).
Proof. vm_compute. reflexivity. Qed.

(** One phase, from any engine state, tick and log. *)
Lemma dvfs_phase1_gen s t sf ds lg :
  phase1 E (mkWorld E built_heap built_globals args (Some s) t sf ds lg) =
  let r := advance E (Some 20000000%N) heap1 t s in
  inr (tt, mkWorld E heap1 (dict_set built_globals "exit_event" (VExit (cause r))) args
             (Some (next r)) (t + elapsed r) t (ds ++ [(t, t + elapsed r)%N])
             (emits lg
                ([EvPrint [Lit (nl +:+ "[Phase 1] Running at 500MHz (high performance)...")]]
                 ++ phase_block cpu_clk_domain cpu_voltage_domain "500MHz" "0.9V"
                      (Some 20000000%N) t (t + elapsed r) (cause r)
                 ++ [EvPrint [Lit "Phase 1 completed at tick "; Num (t + elapsed r)]]))).
Proof. vm_compute. reflexivity. Qed.

Lemma dvfs_phase2_gen v s t sf ds lg :
  phase2 E (mkWorld E heap1 (dict_set built_globals "exit_event" v) args (Some s) t sf ds lg) =
  let r := advance E (Some 20000000%N) heap2 t s in
  inr (tt, mkWorld E heap2 (dict_set built_globals "exit_event" (VExit (cause r))) args
             (Some (next r)) (t + elapsed r) t (ds ++ [(t, t + elapsed r)%N])
             (emits lg
                ([EvPrint [Lit (nl +:+ "[Phase 2] Changing frequency to 300MHz (power saving)...")]]
                 ++ phase_block cpu_clk_domain cpu_voltage_domain "300MHz" "0.7V"
                      (Some 20000000%N) t (t + elapsed r) (cause r)
                 ++ [EvPrint [Lit "Phase 2 completed at tick "; Num (t + elapsed r)]]))).
Proof. vm_compute. reflexivity. Qed.

Lemma dvfs_phase3_gen v s t sf ds lg :
  phase3 E (mkWorld E heap2 (dict_set built_globals "exit_event" v) args (Some s) t sf ds lg) =
  let r := advance E None heap3 t s in
  inr (tt, mkWorld E heap3 (dict_set built_globals "exit_event" (VExit (cause r))) args
             (Some (next r)) (t + elapsed r) t (ds ++ [(t, t + elapsed r)%N])
             (emits lg
                ([EvPrint [Lit (nl +:+ "[Phase 3] Returning to 500MHz for final phase...")]]
                 ++ phase_block cpu_clk_domain cpu_voltage_domain "500MHz" "0.9V"
                      None t (t + elapsed r) (cause r)
                 ++ [EvPrint [Lit "Exiting @ tick "; Num (t + elapsed r);
                              Lit " because "; Str (cause r)]]))).
Proof. vm_compute. reflexivity. Qed.

Lemma dvfs_phase1_eq : phase1 E (w0 E args) = inr (tt, w1 E args).
Proof.
  unfold w0. rewrite dvfs_phase1_gen. cbv zeta. rewrite emits_app.
  rewrite !N.add_0_l. unfold w1, log1, t1, out1. reflexivity.
Qed.

Lemma dvfs_phase2_eq : phase2 E (w1 E args) = inr (tt, w2 E args).
Proof.
  unfold w1. rewrite dvfs_phase2_gen. cbv zeta. rewrite emits_app.
  unfold w2, log2, t2, out2. reflexivity.
Qed.

Lemma dvfs_phase3_eq : phase3 E (w2 E args) = inr (tt, w3 E args).
Proof.
  unfold w2. rewrite dvfs_phase3_gen. cbv zeta. rewrite emits_app.
  unfold w3, log3, t3, out3. reflexivity.
Qed.

Lemma dvfs_drive_eq : drive E (w0 E args) = inr (tt, w3 E args).
Proof.
  unfold drive.
  rewrite (bind_ok _ _ _ _ _ dvfs_phase1_eq).
  rewrite (bind_ok _ _ _ _ _ dvfs_phase2_eq).
  apply dvfs_phase3_eq.
Qed.

Lemma dvfs_run_eq : run E args = inr (tt, w3 E args).
Proof.
  unfold run, script.
  rewrite (bind_ok _ _ _ _ _ dvfs_configure_eq).
  rewrite (bind_ok _ _ _ _ _ dvfs_start_eq).
  apply dvfs_drive_eq.
Qed.
End DvfsSteps.

Section PlainSteps.
Import remove_l2cache_config plain_run.
Variable E : Engine.
Variable args : list string.

Lemma plain_configure_eq : configure E (init_world args) = inr (tt, w_conf E args).
Proof. vm_compute. reflexivity. Qed.

Lemma plain_start_eq : start E (w_conf E args) = inr (tt, w0 E args).
Proof. vm_compute. reflexivity. Qed.

(** The advance and the report, from any engine state, tick and log. *)
Lemma plain_drive_gen s t sf ds lg :
  drive E (mkWorld E built_heap built_globals args (Some s) t sf ds lg) =
  let r := advance E None built_heap t s in
  inr (tt, mkWorld E built_heap (dict_set built_globals "exit_event" (VExit (cause r)))
             args (Some (next r)) (t + elapsed r) sf ds
             (emits lg [EvSimulate None t (t + elapsed r) (cause r);
                        EvPrint [Lit "Exiting @ tick "; Num (t + elapsed r);
                                 Lit " because "; Str (cause r)]])).
Proof. vm_compute. reflexivity. Qed.

Lemma plain_drive_eq : drive E (w0 E args) = inr (tt, w1 E args).
Proof.
  unfold w0. rewrite plain_drive_gen. cbv zeta. rewrite emits_app.
  rewrite !N.add_0_l. unfold w1, log1, out. reflexivity.
Qed.

Lemma plain_run_eq : run E args = inr (tt, w1 E args).
Proof.
  unfold run, script.
  rewrite (bind_ok _ _ _ _ _ plain_configure_eq).
  rewrite (bind_ok _ _ _ _ _ plain_start_eq).
  apply plain_drive_eq.
Qed.
End PlainSteps.

(** ** Counting and filtering events *)

Lemma count_app p (l1 l2 : list Event) : count p (l1 ++ l2) = count p l1 + count p l2.
Proof. unfold count. now rewrite List.filter_app, length_app. Qed.

Lemma control_app (l1 l2 : list Event) : control (l1 ++ l2) = control l1 ++ control l2.
Proof. apply List.filter_app. Qed.

Lemma printed_app (l1 l2 : list Event) : printed (l1 ++ l2) = printed l1 ++ printed l2.
Proof. apply omap_app. Qed.

(** Before [m5.instantiate()] both scripts only assign attributes. *)
Lemma dvfs_construction_only_assigns :
  Forall (λ e, is_setattr e = true) dvfs_run.construction_log.
Proof. apply List.Forall_forall, forallb_forall. vm_compute. reflexivity. Qed.

Lemma plain_construction_only_assigns :
  Forall (λ e, is_setattr e = true) plain_run.construction_log.
Proof. apply List.Forall_forall, forallb_forall. vm_compute. reflexivity. Qed.

Lemma only_assigns_count p (l : list Event) :
  (∀ e, is_setattr e = true → p e = false) →
  Forall (λ e, is_setattr e = true) l → count p l = 0.
Proof.
  intros Hp Hl. unfold count. induction Hl as [|e l He _ IH]; simpl; [done|].
  now rewrite (Hp e He).
Qed.

Lemma only_assigns_printed (l : list Event) :
  Forall (λ e, is_setattr e = true) l → printed l = [].
Proof.
  unfold printed. induction 1 as [|e l He _ IH]; simpl; [done|].
  destruct e; try discriminate. exact IH.
Qed.

Lemma only_assigns_control (l : list Event) :
  Forall (λ e, is_setattr e = true) l → control l = l.
Proof.
  unfold control. induction 1 as [|e l He _ IH]; simpl; [done|].
  destruct e; try discriminate. simpl. now rewrite IH.
Qed.

(** ** The cache classes *)

Section Caches.
Variable E : Engine.
Local Open Scope py_scope.

Lemma cpu_has_ports :
  has_port mro_depth TimingSimpleCPU "icache_port" = true ∧
  has_port mro_depth TimingSimpleCPU "dcache_port" = true.
Proof. split; reflexivity. Qed.

Lemma set_attr_ok (w : World E) o ob a v :
  heap w !! o = Some ob →
  set_attr o a v w = inr (tt, emit (EvSetAttr o a v) (with_heap (store o a v (heap w)) w)).
Proof. intros H. unfold set_attr. now rewrite H. Qed.

Lemma subclass_connects (w : World E) o ob c cob port :
  heap w !! o = Some ob → heap w !! c = Some cob →
  has_port mro_depth (cls cob) port = true →
  assign ($(VRef o)) "cpu_side" ($(VRef c) # port) w =
    inr (tt, emit (EvSetAttr o "cpu_side" (VPort c port))
               (with_heap (store o "cpu_side" (VPort c port) (heap w)) w)).
Proof.
  intros Ho Hc Hp.
  cbv [assign attr bind ret as_obj get_attr].
  rewrite Hc, Hp. now apply set_attr_ok with ob.
Qed.

(** C3. Calling [connectCPU] on an instance of the generic [L1Cache]
    raises [NotImplementedError] whatever the CPU argument is, and the
    exception aborts whatever follows; on an [L1ICache] or [L1DCache] the
    call succeeds and binds [cpu_side] to the CPU's instruction or data
    port. *)
Theorem connectCPU_needs_a_subclass
    (w : World E) (o c : nat) (ob cob : Obj) (cpu : Value) (k : unit → M E unit) :
  heap w !! o = Some ob →
  heap w !! c = Some cob →
  cls cob = TimingSimpleCPU →
  L1Cache_connectCPU (VRef o) cpu w = inl NotImplementedError ∧
  match cls ob with
  | L1Cache =>
      call ($(VRef o)) "connectCPU" ($cpu) w = inl NotImplementedError ∧
      (call ($(VRef o)) "connectCPU" ($cpu) ;; k tt) w = inl NotImplementedError
  | L1ICache =>
      call ($(VRef o)) "connectCPU" ($(VRef c)) w =
        inr (tt, emit (EvSetAttr o "cpu_side" (VPort c "icache_port"))
                   (with_heap (store o "cpu_side" (VPort c "icache_port") (heap w)) w))
  | L1DCache =>
      call ($(VRef o)) "connectCPU" ($(VRef c)) w =
        inr (tt, emit (EvSetAttr o "cpu_side" (VPort c "dcache_port"))
                   (with_heap (store o "cpu_side" (VPort c "dcache_port") (heap w)) w))
  | _ => True
  end.
Proof.
  intros Ho Hc Hcpu. split; [reflexivity|].
  assert (Hcall : ∀ arg,
    call ($(VRef o)) "connectCPU" arg w =
    match resolve mro_depth (cls ob) "connectCPU" with
    | None => inl (AttributeError o "connectCPU")
    | Some f => (a <- arg ;; f (VRef o) a) w
    end).
  { intros arg. cbv [call bind ret as_obj]. now rewrite Ho. }
  destruct (cls ob) eqn:Hcls; try exact I.
  - assert (Hraise : call ($(VRef o)) "connectCPU" ($cpu) w = inl NotImplementedError).
    { now rewrite Hcall. }
    split; [exact Hraise|]. now apply bind_raise.
  - rewrite Hcall. cbn [resolve class_method mro_depth]. simpl.
    unfold L1ICache_connectCPU, bind at 1, ret at 1.
    apply subclass_connects with ob cob; try done.
    rewrite Hcpu. apply cpu_has_ports.
  - rewrite Hcall. cbn [resolve class_method mro_depth]. simpl.
    unfold L1DCache_connectCPU, bind at 1, ret at 1.
    apply subclass_connects with ob cob; try done.
    rewrite Hcpu. apply cpu_has_ports.
Qed.
End Caches.

Lemma connectCPU_needs_a_subclass_witness :
  heap bare_cache_world !! 0 = Some (mkObj L1Cache []) ∧
  heap bare_cache_world !! 1 = Some (mkObj TimingSimpleCPU []) ∧
  cls (mkObj TimingSimpleCPU []) = TimingSimpleCPU ∧
  L1Cache_connectCPU (VRef 0) (VRef 1) bare_cache_world = inl NotImplementedError ∧
  call (ret (VRef 0)) "connectCPU" (ret (VRef 1)) bare_cache_world
    = inl NotImplementedError ∧
  bind (call (ret (VRef 0)) "connectCPU" (ret (VRef 1))) (λ _, print "unreachable")
       bare_cache_world
    = inl NotImplementedError.
Proof.
  split; [reflexivity|]. split; [reflexivity|]. split; [reflexivity|].
  apply (connectCPU_needs_a_subclass idle bare_cache_world 0 1
           (mkObj L1Cache []) (mkObj TimingSimpleCPU []) (VRef 1)
           (λ _, print "unreachable"));
    reflexivity.
Defined.

(** ** The single run *)

Section SingleRun.
Import remove_l2cache_config plain_run.

(** X12. The calls of the single-phase script, lines 116-121. For every
    engine and argument vector the script runs to its end; after
    [m5.instantiate()] it greets, calls [m5.simulate()] once, without
    bound, and reports the tick and the cause of that advance once. The
    script itself calls neither [m5.stats.reset()] nor [m5.stats.dump()],
    assigns no attribute after construction (so no frequency or voltage)
    and leaves the object store as it was built. What the simulator
    writes of its own accord when the process ends is no call of the
    script and is not part of this statement. *)
Theorem single_run_trace (E : Engine) (args : list string) :
  ∃ w t why,
    run E args = inr (tt, w) ∧
    log w = construction_log ++
            [EvInstantiate; EvPrint [Lit greeting];
             EvSimulate None 0 t why;
             EvPrint [Lit "Exiting @ tick "; Num t; Lit " because "; Str why]] ∧
    count is_instantiate (log w) = 1 ∧
    count is_simulate (log w) = 1 ∧
    count is_reset (log w) = 0 ∧
    count is_dump (log w) = 0 ∧
    count is_setattr (log w) = count is_setattr construction_log ∧
    heap w = built_heap ∧
    tick w = t ∧
    printed (log w) =
      [greeting; render [Lit "Exiting @ tick "; Num t; Lit " because "; Str why]].
Proof.
  exists (w1 E args), (elapsed (out E)), (cause (out E)).
  pose proof plain_construction_only_assigns as Hc.
  split; [apply plain_run_eq|].
  assert (Hlog : log (w1 E args) = construction_log ++
            [EvInstantiate; EvPrint [Lit greeting];
             EvSimulate None 0 (elapsed (out E)) (cause (out E));
             EvPrint [Lit "Exiting @ tick "; Num (elapsed (out E));
                      Lit " because "; Str (cause (out E))]]).
  { cbn [w1 log]. unfold log1, log0. now rewrite <- app_assoc. }
  split; [exact Hlog|]. rewrite Hlog.
  rewrite !count_app, printed_app, (only_assigns_printed _ Hc).
  rewrite (only_assigns_count is_instantiate), (only_assigns_count is_simulate),
    (only_assigns_count is_reset), (only_assigns_count is_dump);
    try (exact Hc); try (intros []; done).
  cbn. rewrite Nat.add_0_r. repeat split; reflexivity.
Qed.

End SingleRun.

(** ** Dictionaries *)

Lemma dict_get_set_eq (d : Dict) k v : dict_get (dict_set d k v) k = Some v.
Proof.
  induction d as [|[k' v'] d IH]; simpl.
  - now rewrite String.eqb_refl.
  - destruct (String.eqb k k') eqn:Hk; simpl; rewrite ?String.eqb_refl, ?Hk; done.
Qed.

Lemma dict_get_set_ne (d : Dict) k k' v :
  k ≠ k' → dict_get (dict_set d k v) k' = dict_get d k'.
Proof.
  intros Hne. induction d as [|[k0 v0] d IH]; simpl.
  - destruct (String.eqb_spec k' k); congruence.
  - destruct (String.eqb_spec k k0) as [->|Hk]; simpl.
    + destruct (String.eqb_spec k' k0); congruence.
    + destruct (String.eqb_spec k' k0); congruence.
Qed.

(** ** The sweep *)

Section Sweep.
Import dvfs_config dvfs_run.

Lemma dvfs_log3_eq E :
  log3 E = construction_log ++ EvInstantiate :: sweep_log E.
Proof.
  unfold log3, log2, log1, log0, sweep_log, phase_block.
  repeat rewrite <- app_assoc. reflexivity.
Qed.

Lemma dvfs_boot_eq E args :
  (configure E ;; start E)%py (init_world args) = inr (tt, w0 E args).
Proof.
  rewrite (bind_ok _ _ _ _ _ (dvfs_configure_eq E args)). apply dvfs_start_eq.
Qed.

Lemma sweep_log_control E :
  control (sweep_log E) =
    phase_block cpu_clk_domain cpu_voltage_domain "500MHz" "0.9V"
      (Some 20000000%N) 0 (t1 E) (cause (out1 E))
    ++ phase_block cpu_clk_domain cpu_voltage_domain "300MHz" "0.7V"
         (Some 20000000%N) (t1 E) (t2 E) (cause (out2 E))
    ++ phase_block cpu_clk_domain cpu_voltage_domain "500MHz" "0.9V"
         None (t2 E) (t3 E) (cause (out3 E)).
Proof. reflexivity. Qed.

Lemma sweep_log_simulates E :
  List.filter is_simulate (sweep_log E) =
    [EvSimulate (Some 20000000%N) 0 (t1 E) (cause (out1 E));
     EvSimulate (Some 20000000%N) (t1 E) (t2 E) (cause (out2 E));
     EvSimulate None (t2 E) (t3 E) (cause (out3 E))].
Proof. reflexivity. Qed.

Lemma sweep_log_printed E :
  printed (sweep_log E) = console (t1 E) (t2 E) (t3 E) (cause (out3 E)).
Proof. reflexivity. Qed.

Lemma dvfs_globals_system : dict_get built_globals "system" = Some (VRef system).
Proof. vm_compute. reflexivity. Qed.

Lemma dvfs_clk_built :
  field built_heap system "cpu_clk_domain" = Some (VRef cpu_clk_domain).
Proof. vm_compute. reflexivity. Qed.

Lemma dvfs_vd_built :
  field built_heap system "cpu_voltage_domain" = Some (VRef cpu_voltage_domain).
Proof. vm_compute. reflexivity. Qed.

Lemma dvfs_clk_final :
  field heap3 system "cpu_clk_domain" = Some (VRef cpu_clk_domain).
Proof. vm_compute. reflexivity. Qed.

Lemma dvfs_vd_final :
  field heap3 system "cpu_voltage_domain" = Some (VRef cpu_voltage_domain).
Proof. vm_compute. reflexivity. Qed.

(** C1. For every engine and argument vector the three-phase script runs
    to its end, calls [m5.instantiate()] once, and what it does after
    that call, console output aside, is exactly three blocks one after
    the other: assign the clock of [system.cpu_clk_domain] and the
    voltage of [system.cpu_voltage_domain], reset the statistics,
    advance, dump. Each advance starts at the tick the one before it
    stopped at. *)
Theorem sweep_is_three_ordered_phases (E : Engine) (args : list string) :
  ∃ w after a b c why1 why2 why3,
    run E args = inr (tt, w) ∧
    log w = construction_log ++ EvInstantiate :: after ∧
    count is_instantiate (log w) = 1 ∧
    dict_get (globals w) "system" = Some (VRef system) ∧
    field (heap w) system "cpu_clk_domain" = Some (VRef cpu_clk_domain) ∧
    field (heap w) system "cpu_voltage_domain" = Some (VRef cpu_voltage_domain) ∧
    control after =
      phase_block cpu_clk_domain cpu_voltage_domain "500MHz" "0.9V"
        (Some 20000000%N) 0 a why1
      ++ phase_block cpu_clk_domain cpu_voltage_domain "300MHz" "0.7V"
           (Some 20000000%N) a b why2
      ++ phase_block cpu_clk_domain cpu_voltage_domain "500MHz" "0.9V"
           None b c why3.
Proof.
  exists (w3 E args), (sweep_log E), (t1 E), (t2 E), (t3 E),
    (cause (out1 E)), (cause (out2 E)), (cause (out3 E)).
  split; [apply dvfs_run_eq|].
  cbn [w3 log heap globals]. rewrite dvfs_log3_eq.
  split; [reflexivity|].
  split.
  { rewrite count_app.
    rewrite (only_assigns_count is_instantiate);
      [reflexivity | intros []; done | apply dvfs_construction_only_assigns]. }
  split.
  { rewrite dict_get_set_ne by done. exact dvfs_globals_system. }
  split; [exact dvfs_clk_final|].
  split; [exact dvfs_vd_final|].
  apply sweep_log_control.
Qed.
End Sweep.

Section SweepTicks.
Import dvfs_config dvfs_run.

Lemma dvfs_final_log E args :
  log (w3 E args) = construction_log ++ EvInstantiate :: sweep_log E.
Proof. apply dvfs_log3_eq. Qed.

Lemma dvfs_final_printed E args :
  printed (log (w3 E args)) = console (t1 E) (t2 E) (t3 E) (cause (out3 E)).
Proof.
  rewrite dvfs_final_log, printed_app.
  rewrite (only_assigns_printed _ dvfs_construction_only_assigns).
  apply sweep_log_printed.
Qed.

Lemma dvfs_final_simulates E args :
  List.filter is_simulate (log (w3 E args)) =
    [EvSimulate (Some 20000000%N) 0 (t1 E) (cause (out1 E));
     EvSimulate (Some 20000000%N) (t1 E) (t2 E) (cause (out2 E));
     EvSimulate None (t2 E) (t3 E) (cause (out3 E))].
Proof.
  rewrite dvfs_final_log, List.filter_app.
  assert (H0 : List.filter is_simulate construction_log = []).
  { apply length_zero_iff_nil. change (count is_simulate construction_log = 0).
    apply only_assigns_count;
      [intros []; done | apply dvfs_construction_only_assigns]. }
  rewrite H0. apply sweep_log_simulates.
Qed.


(** C5. The tick at the end of the three-phase run is the sum of what
    went by in its three advances: each advance starts where the one
    before stopped, the first at tick 0, and the three dumped windows
    are those three stretches. *)
Theorem sweep_total_is_sum_of_phases (E : Engine) (args : list string) :
  ∃ w a b c why1 why2 why3,
    run E args = inr (tt, w) ∧
    List.filter is_simulate (log w) =
      [EvSimulate (Some 20000000%N) 0 a why1;
       EvSimulate (Some 20000000%N) a b why2;
       EvSimulate None b c why3] ∧
    (0 ≤ a ∧ a ≤ b ∧ b ≤ c)%N ∧
    tick w = c ∧
    c = ((a - 0) + (b - a) + (c - b))%N ∧
    dumps w = [(0, a); (a, b); (b, c)]%N ∧
    last (printed (log w)) =
      Some (render [Lit "Exiting @ tick "; Num c; Lit " because "; Str why3]).
Proof.
  exists (w3 E args), (t1 E), (t2 E), (t3 E),
    (cause (out1 E)), (cause (out2 E)), (cause (out3 E)).
  split; [apply dvfs_run_eq|].
  split; [apply dvfs_final_simulates|].
  assert (Hle : (0 ≤ t1 E ∧ t1 E ≤ t2 E ∧ t2 E ≤ t3 E)%N) by (unfold t3, t2; lia).
  split; [exact Hle|]. split; [reflexivity|].
  split; [lia|]. split; [reflexivity|].
  rewrite dvfs_final_printed. reflexivity.
Qed.

(** C9. The script goes through its three phases whatever the causes of
    the two bounded advances are; each phase binds [exit_event] anew, so
    that only the third binding is left at the end, and the console shows
    the cause of the third advance and no other. *)
Theorem sweep_keeps_only_last_cause (E : Engine) (args : list string) :
  ∃ w0 w1 w2 w3 a b c why1 why2 why3,
    (configure E ;; start E)%py (init_world args) = inr (tt, w0) ∧
    phase1 E w0 = inr (tt, w1) ∧
    phase2 E w1 = inr (tt, w2) ∧
    phase3 E w2 = inr (tt, w3) ∧
    run E args = inr (tt, w3) ∧
    List.filter is_simulate (log w3) =
      [EvSimulate (Some 20000000%N) 0 a why1;
       EvSimulate (Some 20000000%N) a b why2;
       EvSimulate None b c why3] ∧
    dict_get (globals w0) "exit_event" = None ∧
    dict_get (globals w1) "exit_event" = Some (VExit why1) ∧
    dict_get (globals w2) "exit_event" = Some (VExit why2) ∧
    dict_get (globals w3) "exit_event" = Some (VExit why3) ∧
    printed (log w3) = console a b c why3.
Proof.
  exists (w0 E args), (w1 E args), (w2 E args), (w3 E args), (t1 E), (t2 E), (t3 E),
    (cause (out1 E)), (cause (out2 E)), (cause (out3 E)).
  split; [apply dvfs_boot_eq|].
  split; [apply dvfs_phase1_eq|].
  split; [apply dvfs_phase2_eq|].
  split; [apply dvfs_phase3_eq|].
  split; [apply dvfs_run_eq|].
  split; [apply dvfs_final_simulates|].
  split; [reflexivity|].
  cbn [w1 w2 w3 globals]. rewrite !dict_get_set_eq.
  repeat (split; [reflexivity|]).
  apply dvfs_final_printed.
Qed.

End SweepTicks.


(** ** What the sweep leaves alone *)

Section Frame.
Import dvfs_config dvfs_run.

(** An advance, a reset and a dump do not touch the object store. *)
Lemma m5_simulate_keeps_heap E limit (w : World E) :
  match m5_simulate limit w with
  | inr (_, w') => heap w' = heap w
  | inl _ => True
  end.
Proof. unfold m5_simulate. destruct (eng w); done. Qed.

Lemma untuned_heaps :
  untuned cpu_clk_domain cpu_voltage_domain heap1
    = untuned cpu_clk_domain cpu_voltage_domain built_heap ∧
  untuned cpu_clk_domain cpu_voltage_domain heap2
    = untuned cpu_clk_domain cpu_voltage_domain built_heap ∧
  untuned cpu_clk_domain cpu_voltage_domain heap3
    = untuned cpu_clk_domain cpu_voltage_domain built_heap.
Proof. conjuncts; vm_compute; reflexivity. Qed.

Lemma sweep_log_assignments E :
  List.filter is_setattr (sweep_log E) =
    [EvSetAttr cpu_clk_domain "clock" (VStr "500MHz");
     EvSetAttr cpu_voltage_domain "voltage" (VStr "0.9V");
     EvSetAttr cpu_clk_domain "clock" (VStr "300MHz");
     EvSetAttr cpu_voltage_domain "voltage" (VStr "0.7V");
     EvSetAttr cpu_clk_domain "clock" (VStr "500MHz");
     EvSetAttr cpu_voltage_domain "voltage" (VStr "0.9V")].
Proof. reflexivity. Qed.

(** C6. Once [m5.instantiate()] has returned, the three-phase script
    assigns only the clock of [system.cpu_clk_domain] and the voltage of
    [system.cpu_voltage_domain], twice each per phase boundary and
    always before the phase's advance: after every phase the object
    store, those two fields left out, is the store that was
    instantiated. An advance itself leaves the store as it is. *)
Theorem sweep_assigns_clock_and_voltage_only (E : Engine) (args : list string) :
  ∃ w0 w1 w2 w3 after,
    (configure E ;; start E)%py (init_world args) = inr (tt, w0) ∧
    phase1 E w0 = inr (tt, w1) ∧
    phase2 E w1 = inr (tt, w2) ∧
    phase3 E w2 = inr (tt, w3) ∧
    run E args = inr (tt, w3) ∧
    field (heap w0) system "cpu_clk_domain" = Some (VRef cpu_clk_domain) ∧
    field (heap w0) system "cpu_voltage_domain" = Some (VRef cpu_voltage_domain) ∧
    log w3 = construction_log ++ EvInstantiate :: after ∧
    List.filter is_setattr after =
      [EvSetAttr cpu_clk_domain "clock" (VStr "500MHz");
       EvSetAttr cpu_voltage_domain "voltage" (VStr "0.9V");
       EvSetAttr cpu_clk_domain "clock" (VStr "300MHz");
       EvSetAttr cpu_voltage_domain "voltage" (VStr "0.7V");
       EvSetAttr cpu_clk_domain "clock" (VStr "500MHz");
       EvSetAttr cpu_voltage_domain "voltage" (VStr "0.9V")] ∧
    untuned cpu_clk_domain cpu_voltage_domain (heap w1)
      = untuned cpu_clk_domain cpu_voltage_domain (heap w0) ∧
    untuned cpu_clk_domain cpu_voltage_domain (heap w2)
      = untuned cpu_clk_domain cpu_voltage_domain (heap w0) ∧
    untuned cpu_clk_domain cpu_voltage_domain (heap w3)
      = untuned cpu_clk_domain cpu_voltage_domain (heap w0) ∧
    (∀ limit (w : World E),
       match m5_simulate limit w with
       | inr (_, w') => heap w' = heap w
       | inl _ => True
       end).
Proof.
  exists (w0 E args), (w1 E args), (w2 E args), (w3 E args), (sweep_log E).
  split; [apply dvfs_boot_eq|].
  split; [apply dvfs_phase1_eq|].
  split; [apply dvfs_phase2_eq|].
  split; [apply dvfs_phase3_eq|].
  split; [apply dvfs_run_eq|].
  cbn [w0 w1 w2 w3 heap].
  split; [exact dvfs_clk_built|].
  split; [exact dvfs_vd_built|].
  split; [apply dvfs_final_log|].
  split; [apply sweep_log_assignments|].
  destruct untuned_heaps as (H1 & H2 & H3).
  split; [exact H1|]. split; [exact H2|]. split; [exact H3|].
  intros limit w. apply m5_simulate_keeps_heap.
Qed.
End Frame.

(** ** The argument vector *)

(** C8. Neither script reads its argument vector: for any two argument
    vectors each script runs to its end and leaves the same object store,
    the same module-level names, the same engine state and ticks and the
    same log of calls and console lines. *)
Theorem argument_vector_is_ignored (E : Engine) (args1 args2 : list string) :
  ∃ d1 d2 p1 p2,
    dvfs_config.run E args1 = inr (tt, d1) ∧
    dvfs_config.run E args2 = inr (tt, d2) ∧
    observable d1 = observable d2 ∧
    argv d1 = args1 ∧ argv d2 = args2 ∧
    remove_l2cache_config.run E args1 = inr (tt, p1) ∧
    remove_l2cache_config.run E args2 = inr (tt, p2) ∧
    observable p1 = observable p2 ∧
    argv p1 = args1 ∧ argv p2 = args2.
Proof.
  exists (dvfs_run.w3 E args1), (dvfs_run.w3 E args2),
    (plain_run.w1 E args1), (plain_run.w1 E args2).
  unfold observable.
  cbn [dvfs_run.w3 plain_run.w1 heap globals argv eng tick stat_from dumps log].
  split; [apply dvfs_run_eq|]. split; [apply dvfs_run_eq|].
  split; [reflexivity|]. split; [reflexivity|]. split; [reflexivity|].
  split; [apply plain_run_eq|]. split; [apply plain_run_eq|].
  split; [reflexivity|]. split; reflexivity.
Qed.

(** ** The second-level cache *)

Section NoL2.
Lemma not_elem_of_classes (c : Class) (l : list Class) :
  forallb (λ c', negb (bool_decide (c' = c))) l = true → c ∉ l.
Proof.
  intros H Hin. rewrite forallb_forall in H.
  apply list_elem_of_In, H in Hin.
  now rewrite bool_decide_eq_true_2 in Hin.
Qed.

Lemma dvfs_no_l2 :
  (L2Cache ∉ (cls <$> dvfs_run.heap3)) ∧
  ∃ cpu bus ic dc,
    located dvfs_run.heap3 dvfs_run.system cpu bus ic dc ∧
    field dvfs_run.heap3 ic "mem_side" = Some (VPort bus "cpu_side_ports") ∧
    field dvfs_run.heap3 dc "mem_side" = Some (VPort bus "cpu_side_ports").
Proof.
  split.
  - apply not_elem_of_classes. vm_compute. reflexivity.
  - exists 4, 3, 9, 10. unfold located. conjuncts; vm_compute; reflexivity.
Qed.

Lemma plain_no_l2 :
  (L2Cache ∉ (cls <$> plain_run.built_heap)) ∧
  ∃ cpu bus ic dc,
    located plain_run.built_heap 0 cpu bus ic dc ∧
    field plain_run.built_heap ic "mem_side" = Some (VPort bus "cpu_side_ports") ∧
    field plain_run.built_heap dc "mem_side" = Some (VPort bus "cpu_side_ports").
Proof.
  split.
  - apply not_elem_of_classes. vm_compute. reflexivity.
  - exists 4, 3, 8, 9. unfold located. conjuncts; vm_compute; reflexivity.
Qed.

(** C10. Both scripts define the class [L2Cache], with its 64kB size,
    and neither ever makes an instance of it: when either script ends,
    no object in the store is an [L2Cache], and the memory side of the
    instruction cache and of the data cache is bound to the CPU-side
    ports of the memory bus itself. *)
Theorem no_L2_cache_in_either_system (E : Engine) (args : list string) :
  dict_get (class_body L2Cache) "size" = Some (VStr "64kB") ∧
  base L2Cache = Some Cache ∧
  ∃ d p,
    dvfs_config.run E args = inr (tt, d) ∧
    remove_l2cache_config.run E args = inr (tt, p) ∧
    (L2Cache ∉ (cls <$> heap d)) ∧
    (L2Cache ∉ (cls <$> heap p)) ∧
    (∃ cpu bus ic dc,
       located (heap d) 0 cpu bus ic dc ∧
       field (heap d) ic "mem_side" = Some (VPort bus "cpu_side_ports") ∧
       field (heap d) dc "mem_side" = Some (VPort bus "cpu_side_ports")) ∧
    (∃ cpu bus ic dc,
       located (heap p) 0 cpu bus ic dc ∧
       field (heap p) ic "mem_side" = Some (VPort bus "cpu_side_ports") ∧
       field (heap p) dc "mem_side" = Some (VPort bus "cpu_side_ports")).
Proof.
  split; [reflexivity|]. split; [reflexivity|].
  exists (dvfs_run.w3 E args), (plain_run.w1 E args).
  split; [apply dvfs_run_eq|]. split; [apply plain_run_eq|].
  cbn [dvfs_run.w3 plain_run.w1 heap].
  destruct dvfs_no_l2 as [Hd1 Hd2], plain_no_l2 as [Hp1 Hp2].
  split; [exact Hd1|]. split; [exact Hp1|].
  split; [exact Hd2 | exact Hp2].
Qed.
End NoL2.

(** ** The two systems side by side *)

Section TwoSystems.
Variable E : Engine.
Variable args : list string.

Lemma dvfs_createIoTSystem_eq :
  dvfs_config.createIoTSystem E (init_world args) =
    inr (VRef 0, mkWorld E dvfs_system_heap [] args None 0 0 [] dvfs_system_log).
Proof. vm_compute. reflexivity. Qed.

Lemma plain_createIoTSystem_eq :
  remove_l2cache_config.createIoTSystem E (init_world args) =
    inr (VRef 0, mkWorld E plain_system_heap [] args None 0 0 [] plain_system_log).
Proof. vm_compute. reflexivity. Qed.

Lemma rename_value_id (v : Value) : rename_value id v = v.
Proof.
  revert v. fix IH 1. intros [b|z|s|o|o p|sz|c|l]; simpl; try reflexivity.
  f_equal. induction l as [|x l IHl]; simpl; [reflexivity|].
  now rewrite IH, IHl.
Qed.

Lemma rename_obj_id (ob : Obj) : rename_obj id ob = ob.
Proof.
  destruct ob as [c d]. unfold rename_obj. simpl. f_equal.
  induction d as [|[k v] d IHd]; simpl; [reflexivity|].
  now rewrite rename_value_id, IHd.
Qed.

(** A store holds the same graph as itself. *)
Lemma same_topology_refl (h : Heap) : same_topology h h.
Proof.
  exists id. split; [now intros i j _ _|]. split; [reflexivity|].
  intros o ob Ho. now rewrite rename_obj_id.
Qed.

Lemma two_systems_compared :
  field dvfs_system_heap 0 "cpu_clk_domain" = Some (VRef 6) ∧
  field dvfs_system_heap 0 "dvfs_handler" = Some (VRef 7) ∧
  cls <$> (dvfs_system_heap !! 7) = Some DVFSHandler ∧
  field dvfs_system_heap 7 "domains" = Some (VList [VRef 6]) ∧
  field dvfs_system_heap 6 "domain_id" = Some (VInt 0) ∧
  field plain_system_heap 0 "dvfs_handler" = None ∧
  field plain_system_heap 6 "domain_id" = None ∧
  length dvfs_system_heap = S (length plain_system_heap) ∧
  without_dvfs 0 6 7 dvfs_system_heap = plain_system_heap ∧
  without_dvfs 0 6 7 dvfs_run.built_heap = plain_run.built_heap.
Proof. conjuncts; vm_compute; reflexivity. Qed.

(** C7, as the scripts have it. In both scripts [createIoTSystem]
    succeeds and returns the first object of the store. The system of the
    three-phase script carries DVFS support that the other lacks: a
    [DVFSHandler] under [system.dvfs_handler] whose [domains] is the CPU
    clock domain, and [domain_id = 0] on that clock domain. With those
    left out the two stores are the same, object by object and attribute
    by attribute, and so are the stores the two scripts instantiate. *)
Theorem systems_agree_up_to_dvfs_support :
  ∃ d p,
    dvfs_config.createIoTSystem E (init_world args) = inr (VRef 0, d) ∧
    remove_l2cache_config.createIoTSystem E (init_world args) = inr (VRef 0, p) ∧
    field (heap d) 0 "cpu_clk_domain" = Some (VRef 6) ∧
    field (heap d) 0 "dvfs_handler" = Some (VRef 7) ∧
    cls <$> (heap d !! 7) = Some DVFSHandler ∧
    field (heap d) 7 "domains" = Some (VList [VRef 6]) ∧
    field (heap d) 6 "domain_id" = Some (VInt 0) ∧
    field (heap p) 0 "dvfs_handler" = None ∧
    field (heap p) 6 "domain_id" = None ∧
    length (heap d) = S (length (heap p)) ∧
    without_dvfs 0 6 7 (heap d) = heap p ∧
    same_topology (without_dvfs 0 6 7 (heap d)) (heap p) ∧
    without_dvfs 0 6 7 dvfs_run.built_heap = plain_run.built_heap.
Proof.
  exists (mkWorld E dvfs_system_heap [] args None 0 0 [] dvfs_system_log),
    (mkWorld E plain_system_heap [] args None 0 0 [] plain_system_log).
  split; [apply dvfs_createIoTSystem_eq|].
  split; [apply plain_createIoTSystem_eq|].
  cbn [heap].
  destruct two_systems_compared as (H1 & H2 & H3 & H4 & H5 & H6 & H7 & H8 & H9 & H10).
  split; [exact H1|]. split; [exact H2|]. split; [exact H3|].
  split; [exact H4|]. split; [exact H5|]. split; [exact H6|].
  split; [exact H7|]. split; [exact H8|]. split; [exact H9|].
  split; [|exact H10].
  rewrite H9. apply same_topology_refl.
Qed.
End TwoSystems.

(** The two calls of [createIoTSystem] do not build the same graph: one
    store has an object more than the other. *)
Lemma systems_differ_in_size : ¬ builds_identical_systems.
Proof.
  intros (ρ & _ & Hlen & _).
  assert (Hd : length dvfs_system_heap = 13) by (vm_compute; reflexivity).
  assert (Hp : length plain_system_heap = 12) by (vm_compute; reflexivity).
  rewrite Hd, Hp in Hlen. discriminate Hlen.
Qed.

(** ** The object store under assignment *)

Lemma store_some (h : Heap) o ob a v :
  h !! o = Some ob →
  store o a v h = <[o := mkObj (cls ob) (dict_set (attrs ob) a v)]> h.
Proof. intros Ho. unfold store. now rewrite Ho. Qed.

Lemma store_none (h : Heap) o a v : h !! o = None → store o a v h = h.
Proof. intros Ho. unfold store. now rewrite Ho. Qed.

Lemma lookup_store_eq (h : Heap) o ob a v :
  h !! o = Some ob →
  store o a v h !! o = Some (mkObj (cls ob) (dict_set (attrs ob) a v)).
Proof.
  intros Ho. rewrite (store_some h o ob) by exact Ho.
  apply list_lookup_insert_eq. now apply lookup_lt_Some with ob.
Qed.

Lemma lookup_store_ne (h : Heap) o a v o' :
  o ≠ o' → store o a v h !! o' = h !! o'.
Proof.
  intros Hne. unfold store. destruct (h !! o); [|reflexivity].
  now apply list_lookup_insert_ne.
Qed.

Lemma field_store_eq (h : Heap) o ob a v :
  h !! o = Some ob → field (store o a v h) o a = Some v.
Proof.
  intros Ho. unfold field. rewrite (lookup_store_eq h o ob) by exact Ho.
  simpl. apply dict_get_set_eq.
Qed.

Lemma field_store_ne (h : Heap) o a v o' a' :
  (o, a) ≠ (o', a') → field (store o a v h) o' a' = field h o' a'.
Proof.
  intros Hne. unfold field. destruct (decide (o = o')) as [<-|Hoo].
  - destruct (h !! o) as [ob|] eqn:Ho.
    + rewrite (lookup_store_eq h o ob) by exact Ho. simpl.
      apply dict_get_set_ne. congruence.
    + now rewrite store_none, Ho.
  - now rewrite lookup_store_ne.
Qed.

Lemma cls_store (h : Heap) o a v o' :
  cls <$> (store o a v h !! o') = cls <$> (h !! o').
Proof.
  destruct (decide (o = o')) as [<-|Hoo].
  - destruct (h !! o) as [ob|] eqn:Ho.
    + now rewrite (lookup_store_eq h o ob) by exact Ho.
    + now rewrite store_none, Ho.
  - now rewrite lookup_store_ne.
Qed.

Lemma length_store (h : Heap) o a v : length (store o a v h) = length h.
Proof. unfold store. destruct (h !! o); [apply length_insert | done]. Qed.

(** ** Method calls on the cache classes *)

Section CacheMethods.
Variable E : Engine.
Local Open Scope py_scope.

Lemma call_resolved (w : World E) o ob m (arg : M E Value) :
  heap w !! o = Some ob →
  call ($(VRef o)) m arg w =
    match resolve mro_depth (cls ob) m with
    | None => inl (AttributeError o m)
    | Some f => (a <- arg ;; f (VRef o) a) w
    end.
Proof. intros Ho. cbv [call bind ret as_obj]. now rewrite Ho. Qed.

Lemma port_bound (w : World E) o ob b bob a port :
  heap w !! o = Some ob → heap w !! b = Some bob →
  has_port mro_depth (cls bob) port = true →
  assign ($(VRef o)) a ($(VRef b) # port) w =
    inr (tt, emit (EvSetAttr o a (VPort b port))
               (with_heap (store o a (VPort b port) (heap w)) w)).
Proof.
  intros Ho Hb Hp. cbv [assign attr bind ret as_obj get_attr].
  rewrite Hb, Hp. now apply set_attr_ok with ob.
Qed.

Lemma port_missing (w : World E) o b bob a port :
  heap w !! b = Some bob →
  has_port mro_depth (cls bob) port = false →
  dict_get (attrs bob) port = None →
  class_attr mro_depth (cls bob) port = None →
  assign ($(VRef o)) a ($(VRef b) # port) w = inl (AttributeError b port).
Proof.
  intros Hb Hp Hd Hc. cbv [assign attr bind ret as_obj get_attr].
  now rewrite Hb, Hp, Hd, Hc.
Qed.

(** X1. [connectBus] is defined once, on [L1Cache], and every first-level
    cache answers to it: on an instance of [L1Cache], [L1ICache] or
    [L1DCache] and a bus, the call binds [mem_side] to the bus's
    [cpu_side_ports]; it changes no other attribute of any object, no
    class and not the number of objects. *)
Theorem connectBus_is_inherited
    (w : World E) (o b : nat) (ob bob : Obj) (o' : nat) (a' : string) :
  heap w !! o = Some ob →
  is_l1 (cls ob) = true →
  heap w !! b = Some bob →
  cls bob = SystemXBar →
  (o, "mem_side") ≠ (o', a') →
  ∃ w',
    call ($(VRef o)) "connectBus" ($(VRef b)) w = inr (tt, w') ∧
    field (heap w') o "mem_side" = Some (VPort b "cpu_side_ports") ∧
    field (heap w') o' a' = field (heap w) o' a' ∧
    cls <$> (heap w' !! o') = cls <$> (heap w !! o') ∧
    length (heap w') = length (heap w) ∧
    log w' = log w ++ [EvSetAttr o "mem_side" (VPort b "cpu_side_ports")] ∧
    globals w' = globals w ∧ tick w' = tick w.
Proof.
  intros Ho Hl1 Hb Hbus Hne.
  eexists. split.
  { rewrite (call_resolved w o ob) by exact Ho.
    assert (Hr : resolve (E:=E) mro_depth (cls ob) "connectBus"
                 = Some L1Cache_connectBus).
    { destruct (cls ob); try discriminate Hl1; reflexivity. }
    rewrite Hr. unfold L1Cache_connectBus, bind at 1, ret at 1.
    apply port_bound with ob bob; [exact Ho | exact Hb |].
    rewrite Hbus. reflexivity. }
  cbn [heap log globals tick emit with_heap].
  split; [now apply field_store_eq with ob|].
  split; [now apply field_store_ne|].
  split; [apply cls_store|].
  split; [apply length_store|].
  repeat split.
Qed.

(** X2. When the object handed to [connectBus] has no [cpu_side_ports], or
    the one handed to a subclass's [connectCPU] lacks the port that
    subclass asks for, the call raises [AttributeError] on that object:
    the right-hand side fails before anything is assigned. *)
Theorem connecting_to_a_portless_object_raises
    (w : World E) (o b : nat) (ob bob : Obj) :
  heap w !! o = Some ob →
  heap w !! b = Some bob →
  ports (cls bob) = [] → base (cls bob) = None → attrs bob = [] →
  match cls ob with
  | L1Cache =>
      call ($(VRef o)) "connectBus" ($(VRef b)) w
        = inl (AttributeError b "cpu_side_ports")
  | L1ICache =>
      call ($(VRef o)) "connectBus" ($(VRef b)) w
        = inl (AttributeError b "cpu_side_ports") ∧
      call ($(VRef o)) "connectCPU" ($(VRef b)) w
        = inl (AttributeError b "icache_port")
  | L1DCache =>
      call ($(VRef o)) "connectBus" ($(VRef b)) w
        = inl (AttributeError b "cpu_side_ports") ∧
      call ($(VRef o)) "connectCPU" ($(VRef b)) w
        = inl (AttributeError b "dcache_port")
  | L2Cache =>
      call ($(VRef o)) "connectCPUSideBus" ($(VRef b)) w
        = inl (AttributeError b "mem_side_ports") ∧
      call ($(VRef o)) "connectMemSideBus" ($(VRef b)) w
        = inl (AttributeError b "cpu_side_ports")
  | _ => True
  end.
Proof.
  intros Ho Hb Hports Hbase Hattrs.
  assert (Hmiss : ∀ a port,
    assign ($(VRef o)) a ($(VRef b) # port) w = inl (AttributeError b port)).
  { intros a port. apply port_missing with bob; [exact Hb | | | ].
    - unfold mro_depth. simpl. now rewrite Hports, Hbase.
    - now rewrite Hattrs.
    - unfold mro_depth. simpl. rewrite Hbase.
      destruct (cls bob); try discriminate Hbase; reflexivity. }
  pose proof (λ m arg, call_resolved w o ob m arg Ho) as Hcall.
  destruct (cls ob) eqn:Hcls; try exact I; rewrite ?Hcall;
    repeat split; rewrite ?Hcall; apply Hmiss.
Qed.

(** X3. The two methods of [L2Cache] bind the cache between two buses: its
    CPU side to the [mem_side_ports] of the bus above it and its memory
    side to the [cpu_side_ports] of the bus below it. The two calls do not
    interfere: in either order both run and leave the same two bindings. *)
Theorem L2Cache_sits_between_two_buses
    (w : World E) (o up down : nat) (ob uob dob : Obj) :
  heap w !! o = Some ob → cls ob = L2Cache →
  heap w !! up = Some uob → cls uob = SystemXBar →
  heap w !! down = Some dob → cls dob = SystemXBar →
  ∃ w1 w2,
    (call ($(VRef o)) "connectCPUSideBus" ($(VRef up)) ;;
     call ($(VRef o)) "connectMemSideBus" ($(VRef down))) w = inr (tt, w1) ∧
    (call ($(VRef o)) "connectMemSideBus" ($(VRef down)) ;;
     call ($(VRef o)) "connectCPUSideBus" ($(VRef up))) w = inr (tt, w2) ∧
    field (heap w1) o "cpu_side" = Some (VPort up "mem_side_ports") ∧
    field (heap w1) o "mem_side" = Some (VPort down "cpu_side_ports") ∧
    field (heap w2) o "cpu_side" = Some (VPort up "mem_side_ports") ∧
    field (heap w2) o "mem_side" = Some (VPort down "cpu_side_ports").
Proof.
  intros Ho Hcls Hu Hucls Hd Hdcls.
  assert (Hou : o ≠ up) by (intros ->; congruence).
  assert (Hod : o ≠ down) by (intros ->; congruence).
  assert (Hstep : ∀ (w0 : World E) ob0 pob m a peer port,
    heap w0 !! o = Some ob0 → cls ob0 = L2Cache →
    heap w0 !! peer = Some pob → cls pob = SystemXBar →
    resolve (E:=E) mro_depth L2Cache m =
      Some (λ self bus, assign ($self) a ($bus # port)) →
    has_port mro_depth SystemXBar port = true →
    call ($(VRef o)) m ($(VRef peer)) w0 =
      inr (tt, emit (EvSetAttr o a (VPort peer port))
                 (with_heap (store o a (VPort peer port) (heap w0)) w0))).
  { intros w0 ob0 pob m a peer port Ho0 Hc0 Hp0 Hpc Hres Hport.
    rewrite (call_resolved w0 o ob0) by exact Ho0. rewrite Hc0, Hres.
    unfold bind at 1, ret at 1.
    apply port_bound with ob0 pob; [exact Ho0 | exact Hp0 |].
    now rewrite Hpc. }
  eexists _, _. split.
  { erewrite bind_ok; [|by apply (Hstep w ob uob)].
    apply (Hstep _ (mkObj (cls ob) (dict_set (attrs ob) "cpu_side"
                                      (VPort up "mem_side_ports"))) dob);
      cbn [heap emit with_heap cls]; try done.
    - now apply lookup_store_eq.
    - now rewrite lookup_store_ne. }
  split.
  { erewrite bind_ok; [|by apply (Hstep w ob dob)].
    apply (Hstep _ (mkObj (cls ob) (dict_set (attrs ob) "mem_side"
                                      (VPort down "cpu_side_ports"))) uob);
      cbn [heap emit with_heap cls]; try done.
    - now apply lookup_store_eq.
    - now rewrite lookup_store_ne. }
  cbn [heap emit with_heap].
  split; [rewrite field_store_ne by congruence; now apply field_store_eq with ob|].
  split; [eapply field_store_eq; apply lookup_store_eq; exact Ho|].
  split; [eapply field_store_eq; apply lookup_store_eq; exact Ho|].
  rewrite field_store_ne by congruence. now apply field_store_eq with ob.
Qed.
End CacheMethods.
Lemma connectBus_is_inherited_witness :
  heap dcache_and_bus_world !! 0
    = Some (mkObj L1DCache [("cpu_side", VPort 7 "dcache_port")]) ∧
  is_l1 L1DCache = true ∧
  heap dcache_and_bus_world !! 1 = Some (mkObj SystemXBar []) ∧
  cls (mkObj SystemXBar []) = SystemXBar ∧
  (0, "mem_side") ≠ (0, "cpu_side") ∧
  ∃ w',
    call (ret (VRef 0)) "connectBus" (ret (VRef 1)) dcache_and_bus_world = inr (tt, w') ∧
    field (heap w') 0 "mem_side" = Some (VPort 1 "cpu_side_ports") ∧
    field (heap w') 0 "cpu_side" = field (heap dcache_and_bus_world) 0 "cpu_side" ∧
    cls <$> (heap w' !! 0) = cls <$> (heap dcache_and_bus_world !! 0) ∧
    length (heap w') = length (heap dcache_and_bus_world) ∧
    log w' = log dcache_and_bus_world ++ [EvSetAttr 0 "mem_side" (VPort 1 "cpu_side_ports")] ∧
    globals w' = globals dcache_and_bus_world ∧ tick w' = tick dcache_and_bus_world.
Proof.
  split; [reflexivity|]. split; [reflexivity|]. split; [reflexivity|].
  split; [reflexivity|]. split; [discriminate|].
  apply (connectBus_is_inherited idle dcache_and_bus_world 0 1
           (mkObj L1DCache [("cpu_side", VPort 7 "dcache_port")]) (mkObj SystemXBar [])
           0 "cpu_side"); first [reflexivity | discriminate].
Defined.

Lemma connecting_to_a_portless_object_raises_witness :
  heap l2_and_process_world !! 0 = Some (mkObj L2Cache []) ∧
  heap l2_and_process_world !! 1 = Some (mkObj Process []) ∧
  ports Process = [] ∧ base Process = None ∧ attrs (mkObj Process []) = [] ∧
  call (ret (VRef 0)) "connectCPUSideBus" (ret (VRef 1)) l2_and_process_world
    = inl (AttributeError 1 "mem_side_ports") ∧
  call (ret (VRef 0)) "connectMemSideBus" (ret (VRef 1)) l2_and_process_world
    = inl (AttributeError 1 "cpu_side_ports").
Proof.
  split; [reflexivity|]. split; [reflexivity|]. split; [reflexivity|].
  split; [reflexivity|]. split; [reflexivity|].
  apply (connecting_to_a_portless_object_raises idle l2_and_process_world 0 1
           (mkObj L2Cache []) (mkObj Process [])); reflexivity.
Defined.

Lemma L2Cache_sits_between_two_buses_witness :
  heap l2_and_bus_world !! 0 = Some (mkObj L2Cache []) ∧
  cls (mkObj L2Cache []) = L2Cache ∧
  heap l2_and_bus_world !! 1 = Some (mkObj SystemXBar []) ∧
  cls (mkObj SystemXBar []) = SystemXBar ∧
  ∃ w1 w2,
    bind (call (ret (VRef 0)) "connectCPUSideBus" (ret (VRef 1)))
         (λ _, call (ret (VRef 0)) "connectMemSideBus" (ret (VRef 1)))
         l2_and_bus_world = inr (tt, w1) ∧
    bind (call (ret (VRef 0)) "connectMemSideBus" (ret (VRef 1)))
         (λ _, call (ret (VRef 0)) "connectCPUSideBus" (ret (VRef 1)))
         l2_and_bus_world = inr (tt, w2) ∧
    field (heap w1) 0 "cpu_side" = Some (VPort 1 "mem_side_ports") ∧
    field (heap w1) 0 "mem_side" = Some (VPort 1 "cpu_side_ports") ∧
    field (heap w2) 0 "cpu_side" = Some (VPort 1 "mem_side_ports") ∧
    field (heap w2) 0 "mem_side" = Some (VPort 1 "cpu_side_ports").
Proof.
  split; [reflexivity|]. split; [reflexivity|]. split; [reflexivity|].
  split; [reflexivity|].
  apply (L2Cache_sits_between_two_buses idle l2_and_bus_world 0 1 1
           (mkObj L2Cache []) (mkObj SystemXBar []) (mkObj SystemXBar []));
    reflexivity.
Defined.

Section CacheClasses.
Variable E : Engine.
Local Open Scope py_scope.

(** X4. The two cache families of the scripts do not share their methods.
    An [L2Cache] has neither [connectCPU] nor [connectBus]; an [L1Cache],
    [L1ICache] or [L1DCache] has neither [connectCPUSideBus] nor
    [connectMemSideBus]: no class body of the scripts along the receiver's
    bases defines the name, and the library's [Cache] at the end of both
    chains is taken to add none of the four. Such a call raises
    [AttributeError] on the receiver, and its argument is not even
    evaluated. Nothing is said of receivers of other classes. *)
Theorem cache_families_do_not_share_methods
    (w : World E) (o : nat) (ob : Obj) (arg : M E Value) :
  heap w !! o = Some ob →
  match cls ob with
  | L2Cache =>
      call ($(VRef o)) "connectCPU" arg w = inl (AttributeError o "connectCPU") ∧
      call ($(VRef o)) "connectBus" arg w = inl (AttributeError o "connectBus")
  | L1Cache | L1ICache | L1DCache =>
      call ($(VRef o)) "connectCPUSideBus" arg w
        = inl (AttributeError o "connectCPUSideBus") ∧
      call ($(VRef o)) "connectMemSideBus" arg w
        = inl (AttributeError o "connectMemSideBus")
  | _ => True
  end.
Proof.
  intros Ho. pose proof (λ m, call_resolved E w o ob m arg Ho) as Hcall.
  destruct (cls ob); try exact I; split; rewrite Hcall; reflexivity.
Qed.

Lemma read_class_parameter (w : World E) o ob a v :
  heap w !! o = Some ob →
  has_port mro_depth (cls ob) a = false →
  dict_get (attrs ob) a = None →
  class_attr mro_depth (cls ob) a = Some v →
  get_attr o a w = inr (v, w).
Proof. intros Ho Hp Hd Hc. unfold get_attr. now rewrite Ho, Hp, Hd, Hc. Qed.

(** X5. An instance that has not been given a parameter of its own reads
    it from its class, looking along the base classes: an [L1ICache] or
    [L1DCache] is 8kB with the associativity, latencies and MSHR numbers
    of [L1Cache]; the generic [L1Cache] has all of these but no size; an
    [L2Cache] has its own seven values. *)
Theorem cache_parameters_come_from_the_class (w : World E) (o : nat) (ob : Obj) :
  heap w !! o = Some ob →
  Forall (λ a, dict_get (attrs ob) a = None) parameter_names →
  match cls ob with
  | L1ICache | L1DCache =>
      Forall (λ kv, get_attr o kv.1 w = inr (kv.2, w)) l1_parameters
  | L1Cache =>
      Forall (λ kv, get_attr o kv.1 w = inr (kv.2, w)) (tail l1_parameters) ∧
      class_attr mro_depth L1Cache "size" = None
  | L2Cache =>
      Forall (λ kv, get_attr o kv.1 w = inr (kv.2, w)) l2_parameters
  | _ => True
  end.
Proof.
  intros Ho Hnone.
  assert (Hread : ∀ a v, a ∈ parameter_names →
            has_port mro_depth (cls ob) a = false →
            class_attr mro_depth (cls ob) a = Some v →
            get_attr o a w = inr (v, w)).
  { intros a v Ha Hp Hc. apply read_class_parameter with ob; try done.
    rewrite Forall_forall in Hnone. now apply Hnone. }
  destruct (cls ob) eqn:Hcls; try exact I; try split; try reflexivity;
    repeat (apply Forall_cons; split;
            [apply Hread; [apply list_elem_of_In; simpl; tauto | reflexivity | reflexivity]|]);
    apply Forall_nil_2.
Qed.
End CacheClasses.

Lemma cache_families_do_not_share_methods_witness :
  heap l2_and_bus_world !! 0 = Some (mkObj L2Cache []) ∧
  call (ret (VRef 0)) "connectCPU" (ret (VRef 1)) l2_and_bus_world
    = inl (AttributeError 0 "connectCPU") ∧
  call (ret (VRef 0)) "connectBus" (ret (VRef 1)) l2_and_bus_world
    = inl (AttributeError 0 "connectBus").
Proof.
  split; [reflexivity|].
  apply (cache_families_do_not_share_methods idle l2_and_bus_world 0
           (mkObj L2Cache []) (ret (VRef 1))); reflexivity.
Defined.

Lemma cache_parameters_come_from_the_class_witness :
  heap dcache_and_bus_world !! 0
    = Some (mkObj L1DCache [("cpu_side", VPort 7 "dcache_port")]) ∧
  Forall (λ a, dict_get [("cpu_side", VPort 7 "dcache_port")] a = None) parameter_names ∧
  Forall (λ kv, get_attr 0 kv.1 dcache_and_bus_world = inr (kv.2, dcache_and_bus_world))
         l1_parameters.
Proof.
  assert (H : Forall (λ a, dict_get [("cpu_side", VPort 7 "dcache_port")] a = None)
                     parameter_names).
  { repeat (apply Forall_cons; split; [reflexivity|]). apply Forall_nil_2. }
  split; [reflexivity|]. split; [exact H|].
  apply (cache_parameters_come_from_the_class idle dcache_and_bus_world 0
           (mkObj L1DCache [("cpu_side", VPort 7 "dcache_port")]));
    [reflexivity | exact H].
Defined.
(** ** The clock and voltage domains *)

Section Domains.
Import dvfs_config dvfs_run.
Variable E : Engine.
Variable args : list string.

Lemma dvfs_domains_at_start :
  read "system" ["cpu"; "clk_domain"] (w0 E args)
    = inr (VRef cpu_clk_domain, w0 E args) ∧
  read "system" ["cpu_clk_domain"] (w0 E args)
    = inr (VRef cpu_clk_domain, w0 E args) ∧
  read "system" ["cpu_clk_domain"; "voltage_domain"] (w0 E args)
    = inr (VRef cpu_voltage_domain, w0 E args) ∧
  read "system" ["cpu_voltage_domain"] (w0 E args)
    = inr (VRef cpu_voltage_domain, w0 E args) ∧
  read "system" ["clk_domain"] (w0 E args) = inr (VRef 1, w0 E args) ∧
  read "system" ["clk_domain"; "voltage_domain"] (w0 E args) = inr (VRef 2, w0 E args) ∧
  read "system" ["dvfs_handler"; "domains"] (w0 E args)
    = inr (VList [VRef cpu_clk_domain], w0 E args).
Proof. conjuncts; vm_compute; reflexivity. Qed.

Lemma dvfs_settings (w : World E) (h : Heap) (c : Value) :
  heap w = h → globals w = dict_set built_globals "exit_event" c →
  (h = heap1 ∨ h = heap3 →
   read "system" ["cpu"; "clk_domain"; "clock"] w = inr (VStr "500MHz", w) ∧
   read "system" ["cpu"; "clk_domain"; "voltage_domain"; "voltage"] w
     = inr (VStr "0.9V", w)) ∧
  (h = heap2 →
   read "system" ["cpu"; "clk_domain"; "clock"] w = inr (VStr "300MHz", w) ∧
   read "system" ["cpu"; "clk_domain"; "voltage_domain"; "voltage"] w
     = inr (VStr "0.7V", w)) ∧
  (h = heap1 ∨ h = heap2 ∨ h = heap3 →
   read "system" ["clk_domain"; "clock"] w = inr (VStr "500MHz", w) ∧
   read "system" ["clk_domain"; "voltage_domain"; "voltage"] w
     = inr (VStr "0.9V", w)).
Proof.
  destruct w as [h' g a e t s d l]. cbn [heap globals]. intros -> ->.
  conjuncts.
  - intros [-> | ->]; split; vm_compute; reflexivity.
  - intros ->; split; vm_compute; reflexivity.
  - intros [-> | [-> | ->]]; split; vm_compute; reflexivity.
Qed.

Lemma dvfs_system_settings_at_start :
  read "system" ["clk_domain"; "clock"] (w0 E args)
    = inr (VStr "500MHz", w0 E args) ∧
  read "system" ["clk_domain"; "voltage_domain"; "voltage"] (w0 E args)
    = inr (VStr "0.9V", w0 E args).
Proof. split; vm_compute; reflexivity. Qed.

(** X6. In the system of the three-phase script the CPU runs on the clock
    domain that the phases retune: [system.cpu.clk_domain] is the object
    [system.cpu_clk_domain], whose voltage domain is
    [system.cpu_voltage_domain], and it is the one domain the DVFS handler
    lists. After each phase the CPU therefore sees that phase's clock and
    voltage, while the system-wide [system.clk_domain] and its voltage
    domain, which are other objects, stay at 500MHz and 0.9V throughout. *)
Theorem sweep_retunes_the_cpu_domain_only :
  ∃ w0 w1 w2 w3 clk vd sysclk sysvd,
    (configure E ;; start E)%py (init_world args) = inr (tt, w0) ∧
    phase1 E w0 = inr (tt, w1) ∧
    phase2 E w1 = inr (tt, w2) ∧
    phase3 E w2 = inr (tt, w3) ∧
    read "system" ["cpu"; "clk_domain"] w0 = inr (VRef clk, w0) ∧
    read "system" ["cpu_clk_domain"] w0 = inr (VRef clk, w0) ∧
    read "system" ["cpu_clk_domain"; "voltage_domain"] w0 = inr (VRef vd, w0) ∧
    read "system" ["cpu_voltage_domain"] w0 = inr (VRef vd, w0) ∧
    read "system" ["dvfs_handler"; "domains"] w0 = inr (VList [VRef clk], w0) ∧
    read "system" ["clk_domain"] w0 = inr (VRef sysclk, w0) ∧
    read "system" ["clk_domain"; "voltage_domain"] w0 = inr (VRef sysvd, w0) ∧
    sysclk ≠ clk ∧ sysvd ≠ vd ∧
    read "system" ["cpu"; "clk_domain"; "clock"] w1 = inr (VStr "500MHz", w1) ∧
    read "system" ["cpu"; "clk_domain"; "voltage_domain"; "voltage"] w1
      = inr (VStr "0.9V", w1) ∧
    read "system" ["cpu"; "clk_domain"; "clock"] w2 = inr (VStr "300MHz", w2) ∧
    read "system" ["cpu"; "clk_domain"; "voltage_domain"; "voltage"] w2
      = inr (VStr "0.7V", w2) ∧
    read "system" ["cpu"; "clk_domain"; "clock"] w3 = inr (VStr "500MHz", w3) ∧
    read "system" ["cpu"; "clk_domain"; "voltage_domain"; "voltage"] w3
      = inr (VStr "0.9V", w3) ∧
    Forall (λ w, read "system" ["clk_domain"; "clock"] w = inr (VStr "500MHz", w) ∧
                 read "system" ["clk_domain"; "voltage_domain"; "voltage"] w
                   = inr (VStr "0.9V", w))
           [w0; w1; w2; w3].
Proof.
  exists (w0 E args), (w1 E args), (w2 E args), (w3 E args),
    cpu_clk_domain, cpu_voltage_domain, 1, 2.
  split; [apply dvfs_boot_eq|].
  split; [apply dvfs_phase1_eq|].
  split; [apply dvfs_phase2_eq|].
  split; [apply dvfs_phase3_eq|].
  destruct dvfs_domains_at_start as (A1 & A2 & A3 & A4 & A5 & A6 & A7).
  destruct (dvfs_settings (w1 E args) heap1 (VExit (cause (out1 E))))
    as (B1 & _ & S1); [cbn [w1 heap]; reflexivity | cbn [w1 globals]; reflexivity |].
  destruct (dvfs_settings (w2 E args) heap2 (VExit (cause (out2 E))))
    as (_ & B2 & S2); [cbn [w2 heap]; reflexivity | cbn [w2 globals]; reflexivity |].
  destruct (dvfs_settings (w3 E args) heap3 (VExit (cause (out3 E))))
    as (B3 & _ & S3); [cbn [w3 heap]; reflexivity | cbn [w3 globals]; reflexivity |].
  specialize (B1 (or_introl eq_refl)). specialize (B2 eq_refl).
  specialize (B3 (or_intror eq_refl)).
  specialize (S1 (or_introl eq_refl)).
  specialize (S2 (or_intror (or_introl eq_refl))).
  specialize (S3 (or_intror (or_intror eq_refl))).
  split; [exact A1|]. split; [exact A2|]. split; [exact A3|]. split; [exact A4|].
  split; [exact A7|]. split; [exact A5|]. split; [exact A6|].
  split; [discriminate|]. split; [discriminate|].
  split; [exact (proj1 B1)|]. split; [exact (proj2 B1)|].
  split; [exact (proj1 B2)|]. split; [exact (proj2 B2)|].
  split; [exact (proj1 B3)|]. split; [exact (proj2 B3)|].
  apply Forall_cons; split; [exact dvfs_system_settings_at_start|].
  apply Forall_cons; split; [exact S1|].
  apply Forall_cons; split; [exact S2|].
  apply Forall_cons; split; [exact S3|].
  apply Forall_nil_2.
Qed.

Lemma dvfs_heaps_compared :
  heap3 = heap1 ∧
  field built_heap cpu_clk_domain "clock" = Some (VStr "500MHz") ∧
  field built_heap cpu_voltage_domain "voltage" = None ∧
  field heap1 cpu_clk_domain "clock" = Some (VStr "500MHz") ∧
  field heap1 cpu_voltage_domain "voltage" = Some (VStr "0.9V") ∧
  field heap2 cpu_clk_domain "clock" = Some (VStr "300MHz") ∧
  field heap2 cpu_voltage_domain "voltage" = Some (VStr "0.7V") ∧
  store cpu_voltage_domain "voltage" (VStr "0.9V") built_heap = heap1.
Proof. conjuncts; vm_compute; reflexivity. Qed.

(** X7. The third phase puts the object store back exactly as the first
    phase had it, so the run ends in its phase-1 configuration; the second
    phase is the only one with other settings (300MHz and 0.7V). The first
    phase's clock assignment repeats the value [createIoTSystem] gave, so
    that phase changes the store by the CPU voltage alone. *)
Theorem sweep_ends_in_its_first_configuration :
  ∃ w0 w1 w2 w3,
    (configure E ;; start E)%py (init_world args) = inr (tt, w0) ∧
    phase1 E w0 = inr (tt, w1) ∧
    phase2 E w1 = inr (tt, w2) ∧
    phase3 E w2 = inr (tt, w3) ∧
    heap w3 = heap w1 ∧
    heap w2 ≠ heap w1 ∧
    heap w1 = store cpu_voltage_domain "voltage" (VStr "0.9V") (heap w0) ∧
    field (heap w0) cpu_clk_domain "clock" = Some (VStr "500MHz") ∧
    field (heap w1) cpu_clk_domain "clock" = Some (VStr "500MHz") ∧
    field (heap w2) cpu_clk_domain "clock" = Some (VStr "300MHz") ∧
    field (heap w1) cpu_voltage_domain "voltage" = Some (VStr "0.9V") ∧
    field (heap w2) cpu_voltage_domain "voltage" = Some (VStr "0.7V").
Proof.
  exists (w0 E args), (w1 E args), (w2 E args), (w3 E args).
  split; [apply dvfs_boot_eq|].
  split; [apply dvfs_phase1_eq|].
  split; [apply dvfs_phase2_eq|].
  split; [apply dvfs_phase3_eq|].
  cbn [w0 w1 w2 w3 heap].
  destruct dvfs_heaps_compared as (H31 & Hc0 & Hv0 & Hc1 & Hv1 & Hc2 & Hv2 & Hst).
  split; [exact H31|].
  split; [intros Heq; rewrite Heq, Hc1 in Hc2; discriminate Hc2|].
  split; [exact (eq_sym Hst)|].
  split; [exact Hc0|]. split; [exact Hc1|]. split; [exact Hc2|].
  split; [exact Hv1 | exact Hv2].
Qed.
End Domains.

Section CpuVoltage.
Variable E : Engine.
Variable args : list string.

Lemma plain_voltage_facts :
  field plain_run.built_heap 0 "cpu_voltage_domain" = Some (VRef 5) ∧
  field plain_run.built_heap 0 "clk_domain" = Some (VRef 1) ∧
  field plain_run.built_heap 1 "voltage_domain" = Some (VRef 2) ∧
  field plain_run.built_heap 2 "voltage" = Some (VStr "0.9V") ∧
  field plain_run.built_heap 5 "voltage" = None ∧
  List.filter (assigns 5 "voltage") plain_run.construction_log = [] ∧
  List.filter (assigns 5 "voltage") dvfs_run.construction_log = [] ∧
  field dvfs_run.built_heap 5 "voltage" = None ∧
  field dvfs_run.built_heap 2 "voltage" = Some (VStr "0.9V").
Proof. conjuncts; vm_compute; reflexivity. Qed.

(** X8. The 0.9V that [createIoTSystem] assigns goes to the voltage domain
    of the system-wide clock domain. The CPU's own voltage domain gets no
    voltage from it in either script: the single run never assigns one at
    all, and the three-phase script first does so in phase 1, after
    [m5.instantiate()]. *)
Theorem cpu_voltage_is_not_set_by_createIoTSystem :
  ∃ p d0 vd sysvd,
    remove_l2cache_config.run E args = inr (tt, p) ∧
    (dvfs_config.configure E ;; dvfs_config.start E)%py (init_world args)
      = inr (tt, d0) ∧
    read "system" ["cpu_voltage_domain"] p = inr (VRef vd, p) ∧
    read "system" ["clk_domain"; "voltage_domain"] p = inr (VRef sysvd, p) ∧
    read "system" ["cpu_voltage_domain"] d0 = inr (VRef vd, d0) ∧
    read "system" ["clk_domain"; "voltage_domain"] d0 = inr (VRef sysvd, d0) ∧
    field (heap p) sysvd "voltage" = Some (VStr "0.9V") ∧
    field (heap d0) sysvd "voltage" = Some (VStr "0.9V") ∧
    field (heap p) vd "voltage" = None ∧
    field (heap d0) vd "voltage" = None ∧
    List.filter (assigns vd "voltage") (log p) = [] ∧
    List.filter (assigns vd "voltage") (log d0) = [].
Proof.
  exists (plain_run.w1 E args), (dvfs_run.w0 E args), 5, 2.
  split; [apply plain_run_eq|].
  split; [apply dvfs_boot_eq|].
  split; [vm_compute; reflexivity|]. split; [vm_compute; reflexivity|].
  split; [vm_compute; reflexivity|]. split; [vm_compute; reflexivity|].
  cbn [plain_run.w1 dvfs_run.w0 heap log].
  destruct plain_voltage_facts as (_ & _ & _ & P1 & P2 & P3 & D3 & D2 & D1).
  split; [exact P1|]. split; [exact D1|]. split; [exact P2|]. split; [exact D2|].
  unfold plain_run.log1, plain_run.log0, dvfs_run.log0.
  rewrite !List.filter_app, P3, D3. split; reflexivity.
Qed.
End CpuVoltage.
(** ** What is wired to what *)

Section Wiring.
Variable E : Engine.
Variable args : list string.

Lemma dvfs_wiring_facts :
  located dvfs_run.heap3 0 4 3 9 10 ∧
  field dvfs_run.heap3 4 "interrupts" = Some (VList [VRef 8]) ∧
  field dvfs_run.heap3 0 "mem_ctrl" = Some (VRef 11) ∧
  port_bindings dvfs_run.heap3 =
    [(8, "pio", 3, "mem_side_ports"); (8, "int_requestor", 3, "cpu_side_ports");
     (8, "int_responder", 3, "mem_side_ports");
     (9, "cpu_side", 4, "icache_port"); (9, "mem_side", 3, "cpu_side_ports");
     (10, "cpu_side", 4, "dcache_port"); (10, "mem_side", 3, "cpu_side_ports");
     (11, "port", 3, "mem_side_ports")].
Proof. unfold located. conjuncts; vm_compute; reflexivity. Qed.

Lemma plain_wiring_facts :
  located plain_run.built_heap 0 4 3 8 9 ∧
  field plain_run.built_heap 4 "interrupts" = Some (VList [VRef 7]) ∧
  field plain_run.built_heap 0 "mem_ctrl" = Some (VRef 10) ∧
  port_bindings plain_run.built_heap =
    [(7, "pio", 3, "mem_side_ports"); (7, "int_requestor", 3, "cpu_side_ports");
     (7, "int_responder", 3, "mem_side_ports");
     (8, "cpu_side", 4, "icache_port"); (8, "mem_side", 3, "cpu_side_ports");
     (9, "cpu_side", 4, "dcache_port"); (9, "mem_side", 3, "cpu_side_ports");
     (10, "port", 3, "mem_side_ports")].
Proof. unfold located. conjuncts; vm_compute; reflexivity. Qed.

(** X9. In the system either script ends with, the memory bus is the one
    meeting point and these eight port bindings are all there are: the
    interrupt controller's [int_requestor], the instruction cache and the
    data cache hang on the bus's [cpu_side_ports]; the interrupt
    controller's [pio] and [int_responder] and the memory controller's
    [port] on its [mem_side_ports]; the two caches' CPU sides go to the
    CPU's [icache_port] and [dcache_port]. *)
Theorem everything_meets_on_the_memory_bus :
  ∃ d p,
    dvfs_config.run E args = inr (tt, d) ∧
    remove_l2cache_config.run E args = inr (tt, p) ∧
    Forall (λ h,
      ∃ cpu bus ic dc irq mc,
        located h 0 cpu bus ic dc ∧
        field h cpu "interrupts" = Some (VList [VRef irq]) ∧
        field h 0 "mem_ctrl" = Some (VRef mc) ∧
        port_bindings h =
          [(irq, "pio", bus, "mem_side_ports");
           (irq, "int_requestor", bus, "cpu_side_ports");
           (irq, "int_responder", bus, "mem_side_ports");
           (ic, "cpu_side", cpu, "icache_port"); (ic, "mem_side", bus, "cpu_side_ports");
           (dc, "cpu_side", cpu, "dcache_port"); (dc, "mem_side", bus, "cpu_side_ports");
           (mc, "port", bus, "mem_side_ports")])
      [heap d; heap p].
Proof.
  exists (dvfs_run.w3 E args), (plain_run.w1 E args).
  split; [apply dvfs_run_eq|]. split; [apply plain_run_eq|].
  cbn [dvfs_run.w3 plain_run.w1 heap].
  apply Forall_cons; split.
  { exists 4, 3, 9, 10, 8, 11. exact dvfs_wiring_facts. }
  apply Forall_cons; split; [|apply Forall_nil_2].
  exists 4, 3, 8, 9, 7, 10. exact plain_wiring_facts.
Qed.

Lemma workload_facts (w : World E) (h : Heap) (g : Dict) (c : Value) :
  heap w = h → globals w = dict_set g "exit_event" c →
  (h = dvfs_run.heap3 ∧ g = dvfs_run.built_globals) ∨
  (h = plain_run.built_heap ∧ g = plain_run.built_globals) →
  names (globals w) = ["system"; "binary"; "process"; "root"; "exit_event"] ∧
  read "binary" [] w = inr (VStr binary_path, w) ∧
  read "process" ["cmd"] w = inr (VList [VStr binary_path], w) ∧
  read "system" ["cpu"; "workload"] w = read "process" [] w ∧
  read "root" ["system"] w = read "system" [] w ∧
  read "root" ["full_system"] w = inr (VBool false, w) ∧
  read "system" ["mem_mode"] w = inr (VStr "timing", w) ∧
  read "system" ["mem_ranges"] w = inr (VList [VAddrRange "512MB"], w) ∧
  read "system" ["mem_ctrl"; "dram"; "range"] w = inr (VAddrRange "512MB", w).
Proof.
  destruct w as [h' g' a e t s d l]. cbn [heap globals]. intros -> ->.
  intros [[-> ->] | [-> ->]]; conjuncts; vm_compute; reflexivity.
Qed.

(** X10. Both scripts end with the same five module-level names, bound in
    this order: [system], [binary], [process], [root], [exit_event]. The
    process runs the one binary ([process.cmd] is the list of just that
    path), the CPU's workload is that very process object, the root holds
    that very system with [full_system] false, and the DRAM behind the
    memory controller covers the system's single 512MB range in timing
    mode. *)
Theorem scripts_run_one_binary_in_SE_mode :
  ∃ d p,
    dvfs_config.run E args = inr (tt, d) ∧
    remove_l2cache_config.run E args = inr (tt, p) ∧
    Forall (λ w : World E,
      names (globals w) = ["system"; "binary"; "process"; "root"; "exit_event"] ∧
      read "binary" [] w = inr (VStr binary_path, w) ∧
      read "process" ["cmd"] w = inr (VList [VStr binary_path], w) ∧
      read "system" ["cpu"; "workload"] w = read "process" [] w ∧
      read "root" ["system"] w = read "system" [] w ∧
      read "root" ["full_system"] w = inr (VBool false, w) ∧
      read "system" ["mem_mode"] w = inr (VStr "timing", w) ∧
      read "system" ["mem_ranges"] w = inr (VList [VAddrRange "512MB"], w) ∧
      read "system" ["mem_ctrl"; "dram"; "range"] w = inr (VAddrRange "512MB", w))
      [d; p].
Proof.
  exists (dvfs_run.w3 E args), (plain_run.w1 E args).
  split; [apply dvfs_run_eq|]. split; [apply plain_run_eq|].
  apply Forall_cons; split.
  { apply (workload_facts (dvfs_run.w3 E args) dvfs_run.heap3 dvfs_run.built_globals
             (VExit (cause (dvfs_run.out3 E)))).
    - cbn [dvfs_run.w3 heap]. reflexivity.
    - cbn [dvfs_run.w3 globals]. reflexivity.
    - left. split; reflexivity. }
  apply Forall_cons; split; [|apply Forall_nil_2].
  apply (workload_facts (plain_run.w1 E args) plain_run.built_heap
           plain_run.built_globals (VExit (cause (plain_run.out E)))).
  - cbn [plain_run.w1 heap]. reflexivity.
  - cbn [plain_run.w1 globals]. reflexivity.
  - right. split; reflexivity.
Qed.
End Wiring.
(** ** Building beside what exists *)

Section Relocation.
Variable E : Engine.
Variable W : World E.
Local Open Scope py_scope.

Lemma dict_get_rename (d : Dict) a :
  dict_get (List.map (λ kv, (kv.1, rename_value (shift W) kv.2)) d) a
    = rename_value (shift W) <$> dict_get d a.
Proof.
  induction d as [|[k v] d IH]; simpl; [reflexivity|].
  destruct (String.eqb a k); [reflexivity | exact IH].
Qed.

Lemma dict_set_rename (d : Dict) a v :
  List.map (λ kv, (kv.1, rename_value (shift W) kv.2)) (dict_set d a v)
    = dict_set (List.map (λ kv, (kv.1, rename_value (shift W) kv.2)) d) a
               (rename_value (shift W) v).
Proof.
  induction d as [|[k v'] d IH]; simpl; [reflexivity|].
  destruct (String.eqb a k); simpl; [reflexivity | now rewrite IH].
Qed.

Lemma lookup_onto (w : World E) o ob :
  heap w !! o = Some ob →
  heap (onto W w) !! (shift W o) = Some (rename_obj (shift W) ob).
Proof.
  intros Ho. unfold shift at 1. cbn [onto heap]. unfold Heap in *.
  rewrite lookup_app_r by lia.
  replace (length (heap W) + o - length (heap W)) with o by lia.
  now rewrite list_lookup_fmap, Ho.
Qed.

Lemma store_onto (w : World E) o ob a v :
  heap w !! o = Some ob →
  store (shift W o) a (rename_value (shift W) v) (heap (onto W w))
    = heap W ++ (rename_obj (shift W) <$> store o a v (heap w)).
Proof.
  intros Ho.
  rewrite (store_some _ _ _ _ _ (lookup_onto w o ob Ho)).
  rewrite (store_some _ _ _ _ _ Ho).
  cbn [onto heap]. unfold shift at 1. unfold Heap.
  rewrite insert_app_r, list_fmap_insert.
  do 2 f_equal. unfold rename_obj. cbn [cls attrs]. now rewrite dict_set_rename.
Qed.

Lemma class_values_closed c a v :
  class_attr mro_depth c a = Some v → rename_value (shift W) v = v.
Proof.
  assert (Hbody : ∀ c',
            Forall (λ kv, rename_value (shift W) kv.2 = kv.2) (class_body c')).
  { intros []; simpl; repeat (apply Forall_cons; split; [reflexivity|]);
      apply Forall_nil_2. }
  assert (Hget : ∀ (d : Dict) x, Forall (λ kv, rename_value (shift W) kv.2 = kv.2) d →
            dict_get d a = Some x → rename_value (shift W) x = x).
  { intros d x Hd. induction Hd as [|[k y] d Hy _ IH]; simpl; [discriminate|].
    destruct (String.eqb a k); [now intros [= <-] | exact IH]. }
  unfold mro_depth. simpl.
  destruct (dict_get (class_body c) a) eqn:H0; [intros [= <-]; eapply Hget; eauto|].
  destruct (base c) as [b|]; [|discriminate].
  destruct (dict_get (class_body b) a) eqn:H1; [intros [= <-]; eapply Hget; eauto|].
  destruct (base b) as [b'|]; [|discriminate].
  destruct (dict_get (class_body b') a) eqn:H2; [intros [= <-]; eapply Hget; eauto|].
  destruct (base b') as [b''|]; [|discriminate].
  destruct (dict_get (class_body b'') a) eqn:H3; [intros [= <-]; eapply Hget; eauto|].
  discriminate.
Qed.

Lemma carries_ret {A} (f : A → A) (x : A) : carries W f (ret x) (ret (f x)).
Proof. intros w y w1 [= <- <-]. reflexivity. Qed.

Lemma carries_bind {A B} (f : A → A) (g : B → B) (m m' : M E A) (k k' : A → M E B) :
  carries W f m m' →
  (∀ x, carries W g (k x) (k' (f x))) →
  carries W g (bind m k) (bind m' k').
Proof.
  intros Hm Hk w y w2. unfold bind.
  destruct (m w) as [e|[x w1]] eqn:Hmw; [discriminate|].
  intros Hkx. rewrite (Hm _ _ _ Hmw). now apply Hk.
Qed.

Lemma carries_new c : carries W (rename_value (shift W)) (new c) (new c).
Proof.
  intros w x w1 [= <- <-]. unfold new, onto, with_heap.
  cbn [heap log globals argv eng tick stat_from dumps rename_value].
  unfold Heap. rewrite length_app, length_fmap, fmap_app, app_assoc.
  reflexivity.
Qed.

Lemma carries_get_attr o a :
  carries W (rename_value (shift W)) (get_attr o a) (get_attr (shift W o) a).
Proof.
  intros w x w1. unfold get_attr.
  destruct (heap w !! o) as [ob|] eqn:Ho; [|discriminate].
  rewrite (lookup_onto w o ob Ho). cbn [rename_obj cls attrs].
  destruct (has_port mro_depth (cls ob) a); [now intros [= <- <-]|].
  rewrite dict_get_rename.
  destruct (dict_get (attrs ob) a) as [v|]; [now intros [= <- <-]|].
  cbn [fmap option_fmap option_map].
  destruct (class_attr mro_depth (cls ob) a) as [v|] eqn:Hc; [|discriminate].
  intros [= <- <-]. now rewrite (class_values_closed _ _ _ Hc).
Qed.

Lemma carries_set_attr o a v :
  carries W id (set_attr o a v) (set_attr (shift W o) a (rename_value (shift W) v)).
Proof.
  intros w x w1. unfold set_attr.
  destruct (heap w !! o) as [ob|] eqn:Ho; [|discriminate].
  rewrite (lookup_onto w o ob Ho). intros [= <- <-].
  rewrite (store_onto w o ob a v Ho).
  unfold onto, emit, with_heap.
  cbn [heap log globals argv eng tick stat_from dumps].
  rewrite fmap_app, app_assoc. reflexivity.
Qed.

Lemma carries_as_obj v :
  carries W (shift W) (as_obj v) (as_obj (rename_value (shift W) v)).
Proof. destruct v; intros w x w1; try discriminate. now intros [= <- <-]. Qed.

Lemma carries_attr (e e' : M E Value) a :
  carries W (rename_value (shift W)) e e' →
  carries W (rename_value (shift W)) (attr e a) (attr e' a).
Proof.
  intros He. unfold attr. apply carries_bind with (rename_value (shift W)); [exact He|].
  intros v. apply carries_bind with (shift W); [apply carries_as_obj|].
  intros o. apply carries_get_attr.
Qed.

Lemma carries_assign (e e' rhs rhs' : M E Value) a :
  carries W (rename_value (shift W)) e e' →
  carries W (rename_value (shift W)) rhs rhs' →
  carries W id (assign e a rhs) (assign e' a rhs').
Proof.
  intros He Hr. unfold assign. apply carries_bind with (rename_value (shift W)); [exact Hr|].
  intros v. apply carries_bind with (rename_value (shift W)); [exact He|].
  intros t. apply carries_bind with (shift W); [apply carries_as_obj|].
  intros o. apply carries_set_attr.
Qed.

Lemma lookup_map_rename (l : list Value) i :
  List.map (rename_value (shift W)) l !! i = rename_value (shift W) <$> (l !! i).
Proof. revert i. induction l as [|x l IH]; intros [|i]; simpl; auto. Qed.

Lemma carries_item (e e' : M E Value) i :
  carries W (rename_value (shift W)) e e' →
  carries W (rename_value (shift W)) (item e i) (item e' i).
Proof.
  intros He. unfold item. apply carries_bind with (rename_value (shift W)); [exact He|].
  intros [b|z|s|o|o p|sz|c|l] w x w1; try discriminate. cbn [rename_value].
  rewrite lookup_map_rename.
  destruct (l !! i) as [y|]; [|discriminate]. now intros [= <- <-].
Qed.

Lemma carries_methods c m f :
  resolve mro_depth c m = Some f →
  ∀ self a,
    carries W id (f self a)
      (f (rename_value (shift W) self) (rename_value (shift W) a)).
Proof.
  assert (Hassign : ∀ x port self (a : Value),
    carries W id (assign ($self) x ($a # port))
      (assign ($(rename_value (shift W) self)) x
              ($(rename_value (shift W) a) # port))).
  { intros x port self a. apply carries_assign; [apply carries_ret|].
    apply carries_attr, carries_ret. }
  unfold mro_depth. destruct c; simpl; repeat case_decide; intros [= <-] self a;
    first [ intros w x w1; discriminate
          | apply Hassign ].
Qed.

Lemma carries_call (e e' arg arg' : M E Value) m :
  carries W (rename_value (shift W)) e e' →
  carries W (rename_value (shift W)) arg arg' →
  carries W id (call e m arg) (call e' m arg').
Proof.
  intros He Harg. unfold call. apply carries_bind with (rename_value (shift W)); [exact He|].
  intros self. apply carries_bind with (shift W); [apply carries_as_obj|].
  intros o w x w1.
  destruct (heap w !! o) as [ob|] eqn:Ho; [|discriminate].
  rewrite (lookup_onto w o ob Ho). cbn [rename_obj cls].
  destruct (resolve mro_depth (cls ob) m) as [f|] eqn:Hf; [|discriminate].
  apply (carries_bind (rename_value (shift W)) id arg arg' (f self)
           (f (rename_value (shift W) self))); [exact Harg|].
  intros a. now apply carries_methods with (cls ob) m.
Qed.

Lemma carries_createInterruptController (e e' : M E Value) :
  carries W (rename_value (shift W)) e e' →
  carries W id (createInterruptController e) (createInterruptController e').
Proof.
  intros He. unfold createInterruptController.
  apply carries_bind with (rename_value (shift W)); [exact He|]. intros self.
  apply carries_assign; [apply carries_ret|].
  apply carries_bind with (rename_value (shift W)); [apply carries_new|]. intros i.
  apply (carries_ret (rename_value (shift W)) (VList [i])).
Qed.

Lemma carries_closed (v : Value) :
  rename_value (shift W) v = v → carries W (rename_value (shift W)) ($v) ($v).
Proof. intros Hv. pose proof (carries_ret (rename_value (shift W)) v) as H. now rewrite Hv in H. Qed.

Lemma carries_seq {B} (g : B → B) (m m' : M E unit) (k k' : M E B) :
  carries W id m m' → carries W g k k' →
  carries W g (m ;; k) (m' ;; k').
Proof. intros Hm Hk. apply carries_bind with id; [exact Hm | intros _; exact Hk]. Qed.

Lemma onto_blank : onto W (init_world []) = W.
Proof.
  destruct W. unfold onto, init_world. cbn [heap log globals argv eng tick stat_from dumps].
  now rewrite !app_nil_r.
Qed.
End Relocation.

(** Proves that a straight line of statements is carried over. *)
Ltac carry :=
  repeat first
    [ apply carries_seq
    | apply carries_assign
    | apply carries_attr
    | apply carries_item
    | apply carries_call
    | apply carries_createInterruptController
    | apply carries_new
    | apply carries_ret
    | apply carries_closed; reflexivity
    | match goal with
      | |- carries _ _ (bind _ _) (bind _ _) =>
          eapply carries_bind; [|intros ?]
      end ].

Section BuildAnywhere.
Variable E : Engine.
Variable W : World E.

Lemma dvfs_createIoTSystem_carried :
  carries W (rename_value (shift W))
    (dvfs_config.createIoTSystem E) (dvfs_config.createIoTSystem E).
Proof.
  unfold dvfs_config.createIoTSystem, str, int.
  eapply carries_bind; [apply carries_new|]. intros system. carry.
Qed.

Lemma plain_createIoTSystem_carried :
  carries W (rename_value (shift W))
    (remove_l2cache_config.createIoTSystem E) (remove_l2cache_config.createIoTSystem E).
Proof.
  unfold remove_l2cache_config.createIoTSystem, str, int.
  eapply carries_bind; [apply carries_new|]. intros system. carry.
Qed.

Lemma refs_value_rename (ρ : nat → nat) (v : Value) :
  refs_value (rename_value ρ v) = ρ <$> refs_value v.
Proof.
  revert v. fix IH 1. intros [b|z|s|o|o p|sz|c|l]; simpl; try reflexivity.
  induction l as [|x l IHl]; simpl; [reflexivity|].
  now rewrite fmap_app, IH, IHl.
Qed.

Lemma refs_obj_rename (ρ : nat → nat) (ob : Obj) :
  refs_obj (rename_obj ρ ob) = ρ <$> refs_obj ob.
Proof.
  destruct ob as [c d]. unfold refs_obj, rename_obj. cbn [attrs].
  induction d as [|[k v] d IH]; simpl; [reflexivity|].
  now rewrite fmap_app, refs_value_rename, IH.
Qed.

Lemma closed_shifted (fresh : Heap) :
  closed fresh = true →
  Forall (λ ob, Forall (λ r, length (heap W) ≤ r < length (heap W) + length fresh)
                       (refs_obj ob))
         (rename_obj (shift W) <$> fresh).
Proof.
  unfold closed. intros Hc. apply Forall_fmap, Forall_forall. intros ob Hob.
  cbn [compose]. rewrite refs_obj_rename. apply Forall_fmap, Forall_forall.
  intros r Hr. cbn [compose]. unfold shift.
  rewrite forallb_forall in Hc. apply list_elem_of_In in Hob, Hr.
  specialize (Hc ob Hob). rewrite forallb_forall in Hc.
  specialize (Hc r Hr). apply Nat.ltb_lt in Hc. lia.
Qed.

Lemma builds_beside_intro (build : M E Value) (fresh : Heap) (fresh_log : list Event) :
  carries W (rename_value (shift W)) build build →
  build (init_world []) = inr (VRef 0, mkWorld E fresh [] [] None 0 0 [] fresh_log) →
  closed fresh = true →
  builds_beside build fresh fresh_log W.
Proof.
  intros Hcar Hrun Hclosed. specialize (Hcar _ _ _ Hrun).
  rewrite onto_blank in Hcar. cbn [rename_value] in Hcar.
  unfold shift at 1 in Hcar. rewrite Nat.add_0_r in Hcar.
  eexists. split; [exact Hcar|].
  unfold onto. cbn [heap log globals argv eng tick stat_from dumps].
  conjuncts; try reflexivity.
  unfold Heap. rewrite drop_app_length, length_app, length_fmap.
  now apply closed_shifted.
Qed.

Lemma built_systems_closed :
  closed dvfs_system_heap = true ∧ closed plain_system_heap = true ∧
  length dvfs_system_heap = 13 ∧ length plain_system_heap = 12.
Proof. conjuncts; vm_compute; reflexivity. Qed.

(** X11. [createIoTSystem] touches nothing but what it creates. Called in
    any state whatever, in either script, it raises nothing and returns
    the first object it allocated; the objects that were there, the
    module-level names, the arguments, the engine, the tick and the
    statistics are exactly as before; it reads no module-level name. What
    it adds is the system it builds from the initial state, thirteen
    objects in the three-phase script and twelve in the other, under
    shifted identities, and no new object refers to an old one. *)
Theorem createIoTSystem_builds_beside_what_exists :
  builds_beside (dvfs_config.createIoTSystem E)
                dvfs_system_heap dvfs_system_log W ∧
  builds_beside (remove_l2cache_config.createIoTSystem E)
                plain_system_heap plain_system_log W ∧
  length dvfs_system_heap = 13 ∧ length plain_system_heap = 12.
Proof.
  destruct built_systems_closed as (Hd & Hp & Ld & Lp).
  split; [|split; [|split; [exact Ld | exact Lp]]].
  - apply builds_beside_intro;
      [exact dvfs_createIoTSystem_carried | apply dvfs_createIoTSystem_eq | exact Hd].
  - apply builds_beside_intro;
      [exact plain_createIoTSystem_carried | apply plain_createIoTSystem_eq | exact Hp].
Qed.
End BuildAnywhere.
